(** * Scheduled EBS snapshot backups: a shallow embedding of
    [schedule-ebs-snapshot-backups.py] and the properties of its handler.

    The handler is one function with three nested loops over cloud
    resources.  It is embedded as a computation in a state-and-exception
    monad over a model of the cloud: the snapshot store, the record of the
    mutating API calls issued so far, the counter from which the cloud draws
    snapshot identifiers, and the number of clock observations made.

    What is modelled and what is not:
    - tag values and identifiers are byte strings, the UTF-8 encoding of the
      Python strings; [str.lower] is modelled on the ASCII letters (other
      bytes are left unchanged), which decides the handler's comparisons with
      ['true'], ['false'], ['0'] and ['none'] as Python does: outside ASCII
      only U+0130 and U+212A have an ASCII character in their lower case, an
      [i] and a [k], which these words do not have;
    - [int] on a string is a builtin, not code of the repository: the
      handler and every statement about it take it as the parameter
      [int_of_str], [None] standing for [ValueError], and hold whatever it is;
      [Py.parse_int], which follows [int] of Python 3.11 on UTF-8 strings, is
      used to run the examples;
    - every cloud API call is assumed to succeed, and a snapshot created by
      [create_snapshot] is visible to the listing that follows it;
    - [logger.info] calls have no effect on the control flow and are left out;
    - wall-clock time is an oracle, the field [w_clock : nat -> Z] of the
      world, giving in microseconds since the Unix epoch the instant observed
      by the k-th clock reading of the run (by [utcnow], by the cloud when it
      stamps a new snapshot, and by [now(tz)]). *)

From stdpp Require Import base gmap strings list.
From Stdlib Require Import ZArith Ascii String DecimalString Lia.

Local Open Scope string_scope.
Local Open Scope list_scope.
Local Open Scope Z_scope.

(** ** Python values, exceptions and builtins *)

Inductive PyVal : Type :=
| PNone
| PBool (b : bool)
| PInt (n : Z)
| PStr (s : string).

Inductive Exn : Type :=
| ValueError
| TypeError
| OverflowError.

Inductive Result (A : Type) : Type :=
| Ok (a : A)
| Raised (e : Exn).

Arguments Ok {A} a.
Arguments Raised {A} e.

Module Py.

(** [str(v)] *)
Definition str (v : PyVal) : string :=
  match v with
  | PNone => "None"
  | PBool true => "True"
  | PBool false => "False"
  | PInt n => NilZero.string_of_int (Z.to_int n)
  | PStr s => s
  end.

Definition lower_ascii (c : ascii) : ascii :=
  let n := nat_of_ascii c in
  if ((65 <=? n) && (n <=? 90))%nat then ascii_of_nat (n + 32) else c.

(** [s.lower()] *)
Fixpoint lower (s : string) : string :=
  match s with
  | EmptyString => EmptyString
  | String c t => String (lower_ascii c) (lower t)
  end.

(** White space that [int()] skips around an ASCII literal: the characters
    9 to 13 and the blank.  It is not that of [str.isspace] or [str.strip],
    which also take the characters 28 to 31. *)
Definition is_space (c : ascii) : bool :=
  let n := nat_of_ascii c in
  (((9 <=? n) && (n <=? 13)) || (n =? 32))%nat.

Definition digit_of (c : ascii) : option Z :=
  let n := nat_of_ascii c in
  if ((48 <=? n) && (n <=? 57))%nat then Some (Z.of_nat (n - 48)) else None.

(** The literal without the white space that [int()] skips before it. *)
Fixpoint skip_leading_space (s : string) : string :=
  match s with
  | EmptyString => EmptyString
  | String c t => if is_space c then skip_leading_space t else s
  end.

(** The literal without the white space that [int()] accepts after it. *)
Fixpoint skip_trailing_space (s : string) : string :=
  match s with
  | EmptyString => EmptyString
  | String c t =>
      match skip_trailing_space t with
      | EmptyString => if is_space c then EmptyString else String c EmptyString
      | t' => String c t'
      end
  end.

Definition skip_space (s : string) : string :=
  skip_trailing_space (skip_leading_space s).

(** Digits of a base-10 literal: at least one digit, single underscores
    allowed between digits only.  [after_digit] tells whether the previous
    character was a digit. *)
Fixpoint parse_digits (s : string) (acc : Z) (after_digit : bool) : option Z :=
  match s with
  | EmptyString => if after_digit then Some acc else None
  | String c t =>
      match digit_of c with
      | Some d => parse_digits t (10 * acc + d) true
      | None =>
          if (Ascii.eqb c "_" && after_digit)%bool
          then parse_digits t acc false
          else None
      end
  end.

(** The number of digit characters of a literal, and the most that [int()]
    converts. *)
Fixpoint count_digits (s : string) : nat :=
  match s with
  | EmptyString => 0%nat
  | String c t =>
      match digit_of c with
      | Some _ => S (count_digits t)
      | None => count_digits t
      end
  end.

Definition MAX_STR_DIGITS : nat := 4300.

(** [int(s)] for a string of ASCII characters. *)
Definition parse_ascii_int (s : string) : option Z :=
  if (MAX_STR_DIGITS <? count_digits s)%nat then None
  else
    match skip_space s with
    | String "+" t => parse_digits t 0 false
    | String "-" t => option_map Z.opp (parse_digits t 0 false)
    | t => parse_digits t 0 false
    end.

(** The code points of a UTF-8 string; [None] when the bytes are not the
    encoding of a Python string. *)
Definition continuation (c : ascii) : option N :=
  let n := N_of_ascii c in
  if ((128 <=? n) && (n <=? 191))%N then Some (n - 128)%N else None.

Fixpoint utf8_decode (s : string) : option (list N) :=
  match s with
  | EmptyString => Some []
  | String b t =>
      let n := N_of_ascii b in
      if (n <? 128)%N then option_map (cons n) (utf8_decode t)
      else if ((194 <=? n) && (n <=? 223))%N then
        match t with
        | String c1 t1 =>
            match continuation c1 with
            | Some x1 =>
                option_map (cons ((n - 192) * 64 + x1)%N) (utf8_decode t1)
            | None => None
            end
        | _ => None
        end
      else if ((224 <=? n) && (n <=? 239))%N then
        match t with
        | String c1 (String c2 t2) =>
            match continuation c1, continuation c2 with
            | Some x1, Some x2 =>
                let cp := (((n - 224) * 64 + x1) * 64 + x2)%N in
                if ((2048 <=? cp) && negb ((55296 <=? cp) && (cp <=? 57343)))%N
                then option_map (cons cp) (utf8_decode t2)
                else None
            | _, _ => None
            end
        | _ => None
        end
      else if ((240 <=? n) && (n <=? 244))%N then
        match t with
        | String c1 (String c2 (String c3 t3)) =>
            match continuation c1, continuation c2, continuation c3 with
            | Some x1, Some x2, Some x3 =>
                let cp := ((((n - 240) * 64 + x1) * 64 + x2) * 64 + x3)%N in
                if ((65536 <=? cp) && (cp <=? 1114111))%N
                then option_map (cons cp) (utf8_decode t3)
                else None
            | _, _, _ => None
            end
        | _ => None
        end
      else None
  end.

(** The white space of Unicode 14 above U+007E. *)
Definition UNICODE_SPACES : list N :=
  [133; 160; 5760; 8192; 8193; 8194; 8195; 8196; 8197; 8198; 8199; 8200; 8201;
   8202; 8232; 8233; 8239; 8287; 12288]%N.

(** The digits zero of the decimal digits of Unicode 14 above U+007E; the nine
    code points after each are its digits one to nine. *)
Definition UNICODE_ZEROS : list N :=
  [1632; 1776; 1984; 2406; 2534; 2662; 2790; 2918; 3046; 3174; 3302; 3430; 3558;
   3664; 3792; 3872; 4160; 4240; 6112; 6160; 6470; 6608; 6784; 6800; 6992; 7088;
   7232; 7248; 42528; 43216; 43264; 43472; 43504; 43600; 44016; 65296; 66720;
   68912; 69734; 69872; 69942; 70096; 70384; 70736; 70864; 71248; 71360; 71472;
   71904; 72016; 72784; 73040; 73120; 92768; 92864; 93008; 120782; 120792;
   120802; 120812; 120822; 123200; 123632; 125264; 130032]%N.

(** What [int()] reads a character as: itself below U+007F, a blank for white
    space, the ASCII digit for a decimal digit, and nothing it can parse
    otherwise. *)
Definition to_ascii_char (cp : N) : option ascii :=
  if (cp <? 127)%N then Some (ascii_of_N cp)
  else if existsb (N.eqb cp) UNICODE_SPACES then Some " "%char
  else
    match find (fun z => ((z <=? cp) && (cp <=? z + 9))%N) UNICODE_ZEROS with
    | Some z => Some (ascii_of_N (48 + (cp - z)))
    | None => None
    end.

Fixpoint to_ascii (cps : list N) : option string :=
  match cps with
  | [] => Some EmptyString
  | cp :: t =>
      match to_ascii_char cp, to_ascii t with
      | Some c, Some s => Some (String c s)
      | _, _ => None
      end
  end.

(** [int(s)] of Python 3.11 for a string given by its UTF-8 bytes: [None]
    stands for [ValueError]. *)
Definition parse_int (s : string) : option Z :=
  match utf8_decode s with
  | Some cps =>
      match to_ascii cps with
      | Some a => parse_ascii_int a
      | None => None
      end
  | None => None
  end.

(** [int(v)], given what [int] does on strings. *)
Definition int (int_of_str : string -> option Z) (v : PyVal) : Result Z :=
  match v with
  | PNone => Raised TypeError
  | PBool b => Ok (if b then 1 else 0)
  | PInt n => Ok n
  | PStr s =>
      match int_of_str s with
      | Some n => Ok n
      | None => Raised ValueError
      end
  end.

(** [s.rpartition(sep)] for a one-character separator: split at the last
    occurrence; when there is none the result is [('', '', s)]. *)
Fixpoint rsplit_last (sep : ascii) (s : string) : option (string * string) :=
  match s with
  | EmptyString => None
  | String c t =>
      match rsplit_last sep t with
      | Some (h, tl) => Some (String c h, tl)
      | None => if Ascii.eqb c sep then Some (EmptyString, t) else None
      end
  end.

Definition rpartition (sep : ascii) (s : string) : string * string * string :=
  match rsplit_last sep s with
  | Some (h, tl) => (h, String sep EmptyString, tl)
  | None => (EmptyString, EmptyString, s)
  end.

(** ["%0<width>d" % n] for a non-negative [n]. *)
Definition zfill (width : nat) (n : Z) : string :=
  let s := NilZero.string_of_uint (N.to_uint (Z.to_N n)) in
  string_of_list_ascii (repeat "0"%char (width - String.length s)) +:+ s.

(** ['{}.{}.{}'.format(a, b, c)] *)
Definition format3 (a b c : string) : string :=
  a +:+ "." +:+ b +:+ "." +:+ c.

End Py.

(** ** [datetime] *)

Module Datetime.

Record datetime : Type := mk_datetime {
  year : Z; month : Z; day : Z;
  hour : Z; minute : Z; second : Z; microsecond : Z
}.

Definition DI400Y : Z := 146097.
Definition DI100Y : Z := 36524.
Definition DI4Y : Z := 1461.

Definition DAYS_IN_MONTH (m : Z) : Z :=
  nth (Z.to_nat m) [-1; 31; 28; 31; 30; 31; 30; 31; 31; 30; 31; 30; 31] 0.

Definition DAYS_BEFORE_MONTH (m : Z) : Z :=
  nth (Z.to_nat m) [-1; 0; 31; 59; 90; 120; 151; 181; 212; 243; 273; 304; 334] 0.

(** Proleptic Gregorian ordinal to (year, month, day), 0001-01-01 being day 1,
    as [datetime] computes it. *)
Definition ord2ymd (n0 : Z) : Z * Z * Z :=
  let n := n0 - 1 in
  let n400 := n / DI400Y in
  let n := n mod DI400Y in
  let y := n400 * 400 + 1 in
  let n100 := n / DI100Y in
  let n := n mod DI100Y in
  let n4 := n / DI4Y in
  let n := n mod DI4Y in
  let n1 := n / 365 in
  let n := n mod 365 in
  let y := y + n100 * 100 + n4 * 4 + n1 in
  if (n1 =? 4) || (n100 =? 4) then (y - 1, 12, 31)
  else
    let leapyear := (n1 =? 3) && (negb (n4 =? 24) || (n100 =? 3)) in
    let m := Z.shiftr (n + 50) 5 in
    let preceding :=
      DAYS_BEFORE_MONTH m + (if (2 <? m) && leapyear then 1 else 0) in
    if n <? preceding then
      let m := m - 1 in
      let preceding :=
        preceding - (DAYS_IN_MONTH m + (if (m =? 2) && leapyear then 1 else 0)) in
      (y, m, n - preceding + 1)
    else (y, m, n - preceding + 1).

Definition US_PER_SECOND : Z := 1000000.
Definition US_PER_DAY : Z := 86400 * US_PER_SECOND.
Definition EPOCH_ORDINAL : Z := 719163.

(** The UTC calendar fields of an instant given in microseconds since the
    Unix epoch. *)
Definition utcfromtimestamp (t : Z) : datetime :=
  let secs := t / US_PER_SECOND in
  let us := t mod US_PER_SECOND in
  let days := secs / 86400 in
  let sod := secs mod 86400 in
  let '(y, m, d) := ord2ymd (days + EPOCH_ORDINAL) in
  mk_datetime y m d (sod / 3600) ((sod mod 3600) / 60) (sod mod 60) us.

(** The date and time down to whole seconds, [YYYY-MM-DDTHH:MM:SS]. *)
Definition isoformat_seconds (dt : datetime) : string :=
  Py.zfill 4 (year dt) +:+ "-" +:+ Py.zfill 2 (month dt) +:+ "-" +:+
  Py.zfill 2 (day dt) +:+ "T" +:+ Py.zfill 2 (hour dt) +:+ ":" +:+
  Py.zfill 2 (minute dt) +:+ ":" +:+ Py.zfill 2 (second dt).

(** [dt.isoformat()] of a naive datetime: the fractional part is printed
    only when the microsecond field is not zero. *)
Definition isoformat (dt : datetime) : string :=
  isoformat_seconds dt +:+
  (if microsecond dt =? 0 then "" else "." +:+ Py.zfill 6 (microsecond dt)).

Definition MAX_DELTA_DAYS : Z := 999999999.

(** [timedelta(days=d)], in microseconds. *)
Definition timedelta_days (d : Z) : Result Z :=
  if Z.abs d <=? MAX_DELTA_DAYS then Ok (d * US_PER_DAY) else Raised OverflowError.

End Datetime.

(** ** The cloud: resources, the snapshot store and the API calls *)

Definition Tag : Type := string * string.

Record Snapshot : Type := mk_snapshot {
  snap_id : nat;
  snap_volume_id : string;
  snap_description : string;
  snap_start_time : Z;
  snap_tags : option (list Tag)
}.

Record Volume : Type := mk_volume {
  vol_id : string;
  vol_tags : option (list Tag)
}.

Record Instance : Type := mk_instance {
  inst_id : string;
  inst_state : string;
  inst_tags : option (list Tag);
  inst_volumes : list Volume
}.

(** The mutating calls the handler issues, in the order it issues them. *)
Inductive ApiCall : Type :=
| CreateSnapshot (volume_id : string) (description : string) (id : nat)
| CreateTags (id : nat) (tags : list Tag)
| DeleteSnapshot (id : nat).

Record World : Type := mk_world {
  w_instances : list Instance;
  w_snapshots : list Snapshot;
  w_calls : list ApiCall;
  w_next_id : nat;
  w_clock : nat -> Z;
  w_tick : nat
}.

(** No number occurs twice in the list. *)
Fixpoint distinct (l : list nat) : bool :=
  match l with
  | [] => true
  | x :: t => negb (existsb (Nat.eqb x) t) && distinct t
  end.

(** Snapshot identifiers are unique and were all drawn from the counter. *)
Definition wf_world (w : World) : bool :=
  distinct (map snap_id (w_snapshots w)) &&
  forallb (fun s => (snap_id s <? w_next_id w)%nat) (w_snapshots w).

(** ** The state-and-exception monad *)

Definition M (A : Type) : Type := World -> Result A * World.

Definition ret {A : Type} (a : A) : M A := fun w => (Ok a, w).

Definition bind {A B : Type} (m : M A) (k : A -> M B) : M B :=
  fun w =>
    match m w with
    | (Ok a, w') => k a w'
    | (Raised e, w') => (Raised e, w')
    end.

Definition lift {A : Type} (r : Result A) : M A := fun w => (r, w).

Notation "x <- m ;; k" := (bind m (fun x => k))
  (at level 100, m at next level, right associativity).
Notation "m ;; k" := (bind m (fun _ => k))
  (at level 100, right associativity).

(** A [for] loop whose body may [continue] (return early) or raise. *)
Fixpoint for_each {A : Type} (l : list A) (body : A -> M unit) : M unit :=
  match l with
  | [] => ret tt
  | x :: t => body x ;; for_each t body
  end.

(** The world after one more observation of the wall clock. *)
Definition advance (w : World) : World :=
  mk_world (w_instances w) (w_snapshots w) (w_calls w) (w_next_id w)
           (w_clock w) (S (w_tick w)).

(** One observation of the wall clock. *)
Definition clock_read : M Z :=
  fun w => (Ok (w_clock w (w_tick w)), advance w).

(** [datetime.datetime.utcnow()] *)
Definition utcnow : M Datetime.datetime :=
  t <- clock_read ;; ret (Datetime.utcfromtimestamp t).

(** [datetime.datetime.now(tz)]: an aware datetime, kept as the instant it
    denotes. *)
Definition now (tz : unit) : M Z := clock_read.

Definition has_tag_key (key : string) (tags : option (list Tag)) : bool :=
  match tags with
  | Some ts => existsb (fun t => String.eqb (fst t) key) ts
  | None => false
  end.

(** [ec2.instances.filter(Filters=[tag-key, instance-state-name])] *)
Definition instances_filter (tag_key state : string) : M (list Instance) :=
  fun w =>
    (Ok (List.filter
           (fun i => has_tag_key tag_key (inst_tags i) && String.eqb (inst_state i) state)
           (w_instances w)),
     w).

(** [volume.create_snapshot(Description=description)]: the cloud stamps the
    snapshot with its start time and names it. *)
Definition create_snapshot (volume : Volume) (description : string) : M Snapshot :=
  start <- clock_read ;;
  fun w =>
    let s := mk_snapshot (w_next_id w) (vol_id volume) description start None in
    (Ok s,
     mk_world (w_instances w) (w_snapshots w ++ [s])
              (w_calls w ++ [CreateSnapshot (vol_id volume) description (w_next_id w)])
              (S (w_next_id w)) (w_clock w) (w_tick w)).

(** Adding tags to a resource overwrites the values of keys it already has. *)
Definition set_tag (tags : list Tag) (t : Tag) : list Tag :=
  List.filter (fun t' => negb (String.eqb (fst t') (fst t))) tags ++ [t].

Definition add_tags (tags : option (list Tag)) (new : list Tag) : option (list Tag) :=
  Some (fold_left set_tag new (default [] tags)).

(** [snapshot.create_tags(Tags=tags)] *)
Definition create_tags (snapshot : Snapshot) (tags : list Tag) : M unit :=
  fun w =>
    (Ok tt,
     mk_world (w_instances w)
              (map (fun s =>
                      if (snap_id s =? snap_id snapshot)%nat
                      then mk_snapshot (snap_id s) (snap_volume_id s) (snap_description s)
                                       (snap_start_time s) (add_tags (snap_tags s) tags)
                      else s)
                   (w_snapshots w))
              (w_calls w ++ [CreateTags (snap_id snapshot) tags])
              (w_next_id w) (w_clock w) (w_tick w)).

(** [list(volume.snapshots.filter(Filters=[tag-key]))] *)
Definition snapshots_filter (volume : Volume) (tag_key : string) : M (list Snapshot) :=
  fun w =>
    (Ok (List.filter
           (fun s => String.eqb (snap_volume_id s) (vol_id volume)
                     && has_tag_key tag_key (snap_tags s))
           (w_snapshots w)),
     w).

(** [snapshot.delete()] *)
Definition delete (snapshot : Snapshot) : M unit :=
  fun w =>
    (Ok tt,
     mk_world (w_instances w)
              (List.filter (fun s => negb (snap_id s =? snap_id snapshot)%nat) (w_snapshots w))
              (w_calls w ++ [DeleteSnapshot (snap_id snapshot)])
              (w_next_id w) (w_clock w) (w_tick w)).

Section Handler.

(** [int] on a string: [None] when it raises [ValueError]. *)
Variable int_of_str : string -> option Z.

(** ** The program *)

Definition MIN_RETENTION_COUNT : Z := 1.
Definition RETENTION_DAYS_DEFAULT : Z := 2.
Definition SNAPSHOT_TAG : string := "MakeSnapshot".
Definition RETENTION_TAG : string := "Retention".
Definition DELETE_TAG : string := "AutoDelete".

(** Flatten a list of tags into a single dict: a later tag with the same key
    wins; [None] and the empty list both give the empty dict. *)
Definition tags_dict (tags : option (list Tag)) : gmap string string :=
  match tags with
  | Some ts => foldl (fun d t => <[fst t := snd t]> d) ∅ ts
  | None => ∅
  end.

(** [d.get(key, default)]; tag values are strings. *)
Definition dict_get (d : gmap string string) (key : string) (dflt : PyVal) : PyVal :=
  match d !! key with
  | Some v => PStr v
  | None => dflt
  end.

(** [x in ('false', '0', 'none')] *)
Definition is_false_value (x : string) : bool :=
  existsb (String.eqb x) ["false"; "0"; "none"].

(** Line 31: the instance's opt-in value, lower-cased; an absent tag reads
    as ['none']. *)
Definition instance_make_snapshot (instance_tags : gmap string string) : string :=
  Py.lower (Py.str (dict_get instance_tags SNAPSHOT_TAG PNone)).

(** Line 41: the volume's opt-in value, lower-cased; an absent tag reads as
    ['true']. *)
Definition volume_make_snapshot (volume_tags : gmap string string) : string :=
  Py.lower (Py.str (dict_get volume_tags SNAPSHOT_TAG (PBool true))).

(** Line 38. *)
Definition instance_retention_days (instance_tags : gmap string string) : Result Z :=
  Py.int int_of_str (dict_get instance_tags RETENTION_TAG (PInt RETENTION_DAYS_DEFAULT)).

(** Line 52. *)
Definition volume_retention_days (volume_tags : gmap string string)
    (retention_days : Z) : Result Z :=
  Py.int int_of_str (dict_get volume_tags RETENTION_TAG (PInt retention_days)).

(** Lines 47-48, from the value of [utcnow()]. *)
Definition snapshot_description (instance_name : PyVal) (volume : Volume)
    (utcnow_value : Datetime.datetime) : string :=
  let snapshot_date := fst (fst (Py.rpartition "." (Datetime.isoformat utcnow_value))) in
  Py.format3 (Py.str instance_name) (vol_id volume) snapshot_date.

(** Line 63: the snapshot's deletion-eligibility value, lower-cased. *)
Definition auto_delete_value (snapshot : Snapshot) : string :=
  Py.lower (Py.str (dict_get (tags_dict (snap_tags snapshot)) DELETE_TAG PNone)).

(** Lines 62-76: the body of the loop over the listed snapshots. *)
Definition snapshot_body (volume_retention_days : Z) (snapshot : Snapshot) : M unit :=
  let auto_delete := auto_delete_value snapshot in
  if negb (String.eqb auto_delete "true") then ret tt
  else
    let tz := tt in
    snapshot_retention <- lift (Datetime.timedelta_days volume_retention_days) ;;
    t <- now tz ;;
    let is_expired := (t - snap_start_time snapshot) >? snapshot_retention in
    if negb is_expired then ret tt
    else delete snapshot.

(** Lines 47-51: snapshot the volume and mark the snapshot for later
    automatic deletion. *)
Definition take_snapshot (instance_name : PyVal) (volume : Volume) : M Snapshot :=
  dt <- utcnow ;;
  let description := snapshot_description instance_name volume dt in
  new_snapshot <- create_snapshot volume description ;;
  create_tags new_snapshot [(DELETE_TAG, "true")] ;;
  ret new_snapshot.

(** Lines 53-76: list the volume's snapshots that carry the deletion tag and
    delete the expired ones, unless there are too few of them. *)
Definition purge_snapshots (volume : Volume) (volume_retention_days : Z) : M unit :=
  snapshots <- snapshots_filter volume DELETE_TAG ;;
  if Z.of_nat (List.length snapshots) <=? MIN_RETENTION_COUNT then ret tt
  else for_each snapshots (snapshot_body volume_retention_days).

(** Lines 40-76: the body of the loop over the volumes of an instance. *)
Definition volume_body (instance_name : PyVal) (retention_days : Z)
    (volume : Volume) : M unit :=
  let volume_tags := tags_dict (vol_tags volume) in
  if is_false_value (volume_make_snapshot volume_tags) then ret tt
  else
    take_snapshot instance_name volume ;;
    volume_retention_days <- lift (volume_retention_days volume_tags retention_days) ;;
    purge_snapshots volume volume_retention_days.

(** Lines 30-76: the body of the loop over the selected instances. *)
Definition instance_body (instance : Instance) : M unit :=
  let instance_tags := tags_dict (inst_tags instance) in
  if is_false_value (instance_make_snapshot instance_tags) then ret tt
  else
    let instance_name := dict_get instance_tags "Name" (PStr (inst_id instance)) in
    retention_days <- lift (instance_retention_days instance_tags) ;;
    for_each (inst_volumes instance) (volume_body instance_name retention_days).

(** Lines 23-78. *)
Definition lambda_handler (event context : PyVal) : M bool :=
  instances <- instances_filter SNAPSHOT_TAG "running" ;;
  for_each instances instance_body ;;
  ret true.

(** ** Vocabulary for the statements *)

(** The calls issued between two worlds of one run. *)
Definition calls_since (w w' : World) : list ApiCall :=
  drop (List.length (w_calls w)) (w_calls w').

(** The instances the handler selects. *)
Definition selected_instances (w : World) : list Instance :=
  List.filter
    (fun i => has_tag_key SNAPSHOT_TAG (inst_tags i) && String.eqb (inst_state i) "running")
    (w_instances w).

(** The listing the purge works on: the volume's snapshots carrying the
    deletion tag key, whatever its value. *)
Definition tagged_snapshots (volume : Volume) (w : World) : list Snapshot :=
  List.filter
    (fun s => String.eqb (snap_volume_id s) (vol_id volume)
              && has_tag_key DELETE_TAG (snap_tags s))
    (w_snapshots w).

Definition is_auto_delete (s : Snapshot) : bool :=
  String.eqb (auto_delete_value s) "true".

(** The instant read by [now(tz)] when the [i]-th snapshot of the listing is
    examined: the clock is read once for each snapshot whose tag value is
    ['true'], in listing order, starting from the world [w] in which the purge
    begins. *)
Definition examined_at (w : World) (listing : list Snapshot) (i : nat) : Z :=
  w_clock w (w_tick w + List.length (List.filter is_auto_delete (take i listing)))%nat.

(** Whether a list of calls asks for the deletion of snapshot [id]. *)
Definition deletes (cs : list ApiCall) (id : nat) : bool :=
  existsb (fun c => match c with DeleteSnapshot i => (i =? id)%nat | _ => false end) cs.

(** The snapshot object that [take_snapshot] leaves in the store. *)
Definition new_snapshot_of (instance_name : PyVal) (volume : Volume) (w : World) : Snapshot :=
  mk_snapshot (w_next_id w) (vol_id volume)
    (snapshot_description instance_name volume
       (Datetime.utcfromtimestamp (w_clock w (w_tick w))))
    (w_clock w (S (w_tick w)))
    (Some [(DELETE_TAG, "true")]).

(** The retention rule in the specification's words: the volume's tag if
    present, else the instance's tag if present, else the default. *)
Definition effective_retention_spec (instance_tags volume_tags : gmap string string)
    : Result Z :=
  match volume_tags !! RETENTION_TAG with
  | Some v => Py.int int_of_str (PStr v)
  | None =>
      match instance_tags !! RETENTION_TAG with
      | Some v => Py.int int_of_str (PStr v)
      | None => Ok RETENTION_DAYS_DEFAULT
      end
  end.

(** A computation that leaves the instances and the clock alone, never turns
    the tick counter back, and only appends calls that satisfy [P]. *)
Definition emits {A : Type} (P : ApiCall -> Prop) (m : M A) : Prop :=
  forall w r w', m w = (r, w') ->
    w_instances w' = w_instances w /\ w_clock w' = w_clock w /\
    (w_tick w <= w_tick w')%nat /\
    exists cs, w_calls w' = w_calls w ++ cs /\ Forall P cs.

(** A snapshot creation is justified when it is for a volume that is not
    opted out, attached to a selected instance that is not opted out. *)
Definition creation_justified (w : World) (c : ApiCall) : Prop :=
  match c with
  | CreateSnapshot vid _ _ =>
      exists instance volume,
        In instance (selected_instances w) /\
        In volume (inst_volumes instance) /\
        vol_id volume = vid /\
        is_false_value (instance_make_snapshot (tags_dict (inst_tags instance))) = false /\
        is_false_value (volume_make_snapshot (tags_dict (vol_tags volume))) = false
  | _ => True
  end.

(** The creations that the processing of one volume may issue. *)
Definition volume_call_ok (volume : Volume) (c : ApiCall) : Prop :=
  match c with
  | CreateSnapshot vid _ _ =>
      vol_id volume = vid /\
      is_false_value (volume_make_snapshot (tags_dict (vol_tags volume))) = false
  | _ => True
  end.

(** Whether the character occurs in the string. *)
Fixpoint contains (c : ascii) (s : string) : bool :=
  match s with
  | EmptyString => false
  | String a t => Ascii.eqb a c || contains c t
  end.

(** A computation that keeps the store well formed. *)
Definition keeps_wf {A : Type} (m : M A) : Prop :=
  forall w r w', wf_world w = true -> m w = (r, w') -> wf_world w' = true.

(** A computation that keeps the property [Inv] of the world. *)
Definition preserves {A : Type} (Inv : World -> Prop) (m : M A) : Prop :=
  forall w r w', Inv w -> m w = (r, w') -> Inv w'.

(** A computation whose calls, taken together, satisfy [Q]. *)
Definition issues {A : Type} (Q : list ApiCall -> Prop) (m : M A) : Prop :=
  forall w r w', m w = (r, w') -> exists cs, w_calls w' = w_calls w ++ cs /\ Q cs.

(** Whether every snapshot creation in the list is followed at once by the
    call that tags the new snapshot with ['AutoDelete'] set to ['true']. *)
Fixpoint tagged_on_creation (cs : list ApiCall) : bool :=
  match cs with
  | [] => true
  | CreateSnapshot _ _ id :: rest =>
      match rest with
      | CreateTags id' tags :: rest' =>
          (id =? id')%nat && bool_decide (tags = [(DELETE_TAG, "true")])
          && tagged_on_creation rest'
      | _ => false
      end
  | _ :: rest => tagged_on_creation rest
  end.

(** The snapshot is in the store, the store is well formed, and none of the
    calls issued after the first [n] asks for the snapshot's deletion. *)
Definition kept (s : Snapshot) (n : nat) (w : World) : Prop :=
  wf_world w = true /\ In s (w_snapshots w) /\
  (n <= List.length (w_calls w))%nat /\
  deletes (drop n (w_calls w)) (snap_id s) = false.

(** A run processes the volume named [vid]: a selected instance that is not
    opted out has a volume of that name that is not opted out. *)
Definition processes (w : World) (vid : string) : Prop :=
  exists instance volume,
    In instance (selected_instances w) /\
    In volume (inst_volumes instance) /\
    vol_id volume = vid /\
    is_false_value (instance_make_snapshot (tags_dict (inst_tags instance))) = false /\
    is_false_value (volume_make_snapshot (tags_dict (vol_tags volume))) = false.

(** Line 36: the name under which the instance appears in descriptions. *)
Definition display_name (instance : Instance) : PyVal :=
  dict_get (tags_dict (inst_tags instance)) "Name" (PStr (inst_id instance)).

(** Whether the retention that applies to the volume is an integer that
    [timedelta] accepts; a volume that is opted out needs none. *)
Definition volume_retention_ok (retention_days : Z) (volume : Volume) : bool :=
  is_false_value (volume_make_snapshot (tags_dict (vol_tags volume))) ||
  match volume_retention_days (tags_dict (vol_tags volume)) retention_days with
  | Ok r => Z.abs r <=? Datetime.MAX_DELTA_DAYS
  | Raised _ => false
  end.

Definition instance_retention_ok (instance : Instance) : bool :=
  is_false_value (instance_make_snapshot (tags_dict (inst_tags instance))) ||
  match instance_retention_days (tags_dict (inst_tags instance)) with
  | Ok retention_days => forallb (volume_retention_ok retention_days) (inst_volumes instance)
  | Raised _ => false
  end.

Definition retentions_ok (w : World) : bool :=
  forallb instance_retention_ok (selected_instances w).

(** A creation for the volume whose description is the given name, the
    volume's identifier and a part without ['.'], joined by ['.']. *)
Definition described_call (name : string) (volume : Volume) (c : ApiCall) : Prop :=
  match c with
  | CreateSnapshot vid d _ =>
      vid = vol_id volume /\
      exists stamp, d = name +:+ "." +:+ vid +:+ "." +:+ stamp /\
                    contains "." stamp = false
  | _ => True
  end.

(** ** The specification's vocabulary

    What the specification says of tags, of opting out and of retention,
    written from its words and without the handler's own readings. *)

(** The value of a tag of a resource: the value of the last tag of its list
    that has the key, if there is one. *)
Definition tag_value (key : string) (tags : option (list Tag)) : option string :=
  match tags with
  | Some ts => option_map snd (find (fun t => String.eqb (fst t) key) (rev ts))
  | None => None
  end.

(** Whether the resource carries a tag with the key, whatever its value. *)
Definition carries_tag (key : string) (tags : option (list Tag)) : bool :=
  match tag_value key tags with
  | Some _ => true
  | None => false
  end.

Definition is_upper (c : ascii) : bool :=
  let n := nat_of_ascii c in ((65 <=? n) && (n <=? 90))%nat.

Definition is_lower (c : ascii) : bool :=
  let n := nat_of_ascii c in ((97 <=? n) && (n <=? 122))%nat.

(** Two characters that are equal, or the same ASCII letter in its two cases. *)
Definition same_letter (a b : ascii) : bool :=
  Ascii.eqb a b
  || (is_upper a && is_lower b && (nat_of_ascii b =? nat_of_ascii a + 32)%nat)
  || (is_lower a && is_upper b && (nat_of_ascii a =? nat_of_ascii b + 32)%nat).

(** Two strings that are equal up to the case of their letters. *)
Fixpoint equal_ignoring_case (a b : string) : bool :=
  match a, b with
  | EmptyString, EmptyString => true
  | String x a', String y b' => same_letter x y && equal_ignoring_case a' b'
  | _, _ => false
  end.

(** A [MakeSnapshot] value that opts out. *)
Definition opts_out (value : string) : bool :=
  equal_ignoring_case value "false" || equal_ignoring_case value "0"
  || equal_ignoring_case value "none".

(** An instance that carries the [MakeSnapshot] tag with a value that does not
    opt out. *)
Definition instance_opted_in (instance : Instance) : bool :=
  match tag_value SNAPSHOT_TAG (inst_tags instance) with
  | Some v => negb (opts_out v)
  | None => false
  end.

(** A volume that carries the [MakeSnapshot] tag with a value that opts out; a
    volume without the tag is not opted out. *)
Definition volume_opted_out (volume : Volume) : bool :=
  match tag_value SNAPSHOT_TAG (vol_tags volume) with
  | Some v => opts_out v
  | None => false
  end.

(** A snapshot whose [AutoDelete] value is ['true'] up to case. *)
Definition marked_true (s : Snapshot) : bool :=
  match tag_value DELETE_TAG (snap_tags s) with
  | Some v => equal_ignoring_case v "true"
  | None => false
  end.

(** The retention of a resource: the integer its [Retention] tag holds, or
    the inherited number of days when it has no such tag. *)
Definition retention_of (tags : option (list Tag)) (inherited : Z) : Result Z :=
  match tag_value RETENTION_TAG tags with
  | Some v => Py.int int_of_str (PStr v)
  | None => Ok inherited
  end.

(** The instances a run visits: those that are running and carry the
    [MakeSnapshot] tag. *)
Definition instances_to_visit (w : World) : list Instance :=
  List.filter
    (fun i => carries_tag SNAPSHOT_TAG (inst_tags i) && String.eqb (inst_state i) "running")
    (w_instances w).

(** The snapshots of the volume that carry the [AutoDelete] tag. *)
Definition snapshots_with_tag (volume : Volume) (w : World) : list Snapshot :=
  List.filter
    (fun s => String.eqb (snap_volume_id s) (vol_id volume)
              && carries_tag DELETE_TAG (snap_tags s))
    (w_snapshots w).

(** The instant read when the [i]-th snapshot of the listing is examined, for
    a volume whose processing starts in [w]: two readings are made when the new
    snapshot is taken, then one for each listed snapshot marked ['true'], in
    the order of the listing. *)
Definition purge_reading (w : World) (listing : list Snapshot) (i : nat) : Z :=
  w_clock w (S (S (w_tick w)) + List.length (List.filter marked_true (take i listing)))%nat.

(** A snapshot creation the specification allows: for a volume that is not
    opted out, of a visited instance that is opted in. *)
Definition creation_allowed (w : World) (c : ApiCall) : Prop :=
  match c with
  | CreateSnapshot vid _ _ =>
      exists instance volume,
        In instance (instances_to_visit w) /\
        In volume (inst_volumes instance) /\
        vol_id volume = vid /\
        instance_opted_in instance = true /\
        volume_opted_out volume = false
  | _ => True
  end.

(** The volumes named by the snapshot creations among the calls, in order. *)
Fixpoint created_volumes (cs : list ApiCall) : list string :=
  match cs with
  | [] => []
  | CreateSnapshot vid _ _ :: rest => vid :: created_volumes rest
  | _ :: rest => created_volumes rest
  end.

(** The volumes a run has to snapshot, in the order it meets them: for each
    visited instance that is opted in, its volumes that are not opted out. *)
Definition volumes_due_of (instance : Instance) : list string :=
  if instance_opted_in instance
  then map vol_id (List.filter (fun v => negb (volume_opted_out v)) (inst_volumes instance))
  else [].

Definition volumes_due (w : World) : list string :=
  flat_map volumes_due_of (instances_to_visit w).

(** Whether the retention of the volume is an integer that [timedelta]
    accepts; an opted-out volume needs none. *)
Definition volume_retention_fits (inherited : Z) (volume : Volume) : bool :=
  volume_opted_out volume ||
  match retention_of (vol_tags volume) inherited with
  | Ok r => Z.abs r <=? Datetime.MAX_DELTA_DAYS
  | Raised _ => false
  end.

(** Whether the retention of the instance is an integer and the retentions of
    its volumes fit; an instance that is not opted in needs none. *)
Definition instance_retention_fits (instance : Instance) : bool :=
  negb (instance_opted_in instance) ||
  match retention_of (inst_tags instance) RETENTION_DAYS_DEFAULT with
  | Ok inherited => forallb (volume_retention_fits inherited) (inst_volumes instance)
  | Raised _ => false
  end.

Definition retentions_fit (w : World) : bool :=
  forallb instance_retention_fits (instances_to_visit w).

(** ** Concrete clouds used by the examples *)

Definition T0 : Z := 1478283807123456.

(** A clock that advances by one microsecond at each observation. *)
Definition ticking (t0 : Z) : nat -> Z := fun k => Z.of_nat k + t0.

(** A clock that stands still. *)
Definition frozen (t0 : Z) : nat -> Z := fun _ => t0.

Definition old_snapshot (id : nat) (age_days : Z) : Snapshot :=
  mk_snapshot id "vol-1" "web.vol-1.old" (T0 - age_days * Datetime.US_PER_DAY)
              (Some [("AutoDelete", "true")]).

Definition web_instance (retention : string) : Instance :=
  mk_instance "i-1" "running"
    (Some [("MakeSnapshot", "true"); ("Retention", retention)])
    [mk_volume "vol-1" None].

Definition scenario (retention : string) (snaps : list Snapshot) (clock : nat -> Z) : World :=
  mk_world [web_instance retention] snaps [] (List.length snaps) clock 0.

(** An instance with a name, whose volume overrides the retention. *)
Definition db_instance : Instance :=
  mk_instance "i-0" "running"
    (Some [("Name", "db"); ("MakeSnapshot", "Yes")])
    [mk_volume "vol-0" (Some [("Retention", "7")])].

(** Three selected instances, the second with a retention that is not a
    number, and one stopped instance. *)
Definition mixed_cloud : World :=
  mk_world
    [db_instance;
     mk_instance "i-9" "stopped" (Some [("MakeSnapshot", "true")]) [mk_volume "vol-9" None];
     web_instance "abc";
     web_instance "5"]
    [old_snapshot 0 10] [] 1 (ticking T0) 0.

(** An instance that is opted out, and one that is opted in with two of its
    three volumes opted out. *)
Definition opted_out_instance : Instance :=
  mk_instance "i-2" "running" (Some [("MakeSnapshot", "False")]) [mk_volume "vol-2" None].

Definition partly_opted_out_instance : Instance :=
  mk_instance "i-3" "running" (Some [("MakeSnapshot", "on")])
    [mk_volume "vol-3" (Some [("MakeSnapshot", "NONE")]);
     mk_volume "vol-4" None;
     mk_volume "vol-5" (Some [("MakeSnapshot", "0")])].

Definition opt_out_cloud : World :=
  mk_world [opted_out_instance; partly_opted_out_instance] [] [] 0 (frozen T0) 0.

(** * Properties *)

(** ** The monad and the loops *)

Lemma bind_ok {A B : Type} (m : M A) (k : A -> M B) w a w1 :
  m w = (Ok a, w1) -> bind m k w = k a w1.
Proof. intros H. unfold bind. rewrite H. reflexivity. Qed.

Lemma bind_raised {A B : Type} (m : M A) (k : A -> M B) w e w1 :
  m w = (Raised e, w1) -> bind m k w = (Raised e, w1).
Proof. intros H. unfold bind. rewrite H. reflexivity. Qed.

Lemma run_ok {A : Type} (m : M A) (w : World) (a : A) :
  fst (m w) = Ok a -> m w = (Ok a, snd (m w)).
Proof. destruct (m w) as [r w']. simpl. intros ->. reflexivity. Qed.

Lemma bind_inv_ok {A B : Type} (m : M A) (k : A -> M B) w b w' :
  bind m k w = (Ok b, w') ->
  exists a w1, m w = (Ok a, w1) /\ k a w1 = (Ok b, w').
Proof.
  unfold bind. destruct (m w) as [[a|e] w1]; intros H.
  - exists a, w1. split; [reflexivity | exact H].
  - discriminate H.
Qed.

Lemma for_each_app {A : Type} (body : A -> M unit) (l1 l2 : list A) w :
  for_each (l1 ++ l2) body w = (for_each l1 body ;; for_each l2 body) w.
Proof.
  revert w. induction l1 as [|x l1 IH]; intros w; simpl.
  - reflexivity.
  - unfold bind. destruct (body x w) as [[[]|e] w1].
    + rewrite IH. reflexivity.
    + reflexivity.
Qed.

Lemma instances_filter_selected w :
  instances_filter SNAPSHOT_TAG "running" w = (Ok (selected_instances w), w).
Proof. reflexivity. Qed.

(** ** The handler's return value *)

(** C8. An invocation of the handler that completes without raising returns
    the boolean [True], whatever it processed, skipped or deleted. *)
Theorem handler_returns_true (event context : PyVal) (w : World) (r : bool) :
  fst (lambda_handler event context w) = Ok r -> r = true.
Proof.
  unfold lambda_handler. rewrite (bind_ok _ _ _ _ _ (instances_filter_selected w)).
  unfold bind. destruct (for_each (selected_instances w) instance_body w) as [[[]|e] w1];
    simpl; intros H.
  - injection H as <-. reflexivity.
  - discriminate H.
Qed.

(** ** Retention values that are not integers *)

Lemma instance_body_bad_retention (instance : Instance) (s : string) (w : World) :
  is_false_value (instance_make_snapshot (tags_dict (inst_tags instance))) = false ->
  tags_dict (inst_tags instance) !! RETENTION_TAG = Some s ->
  int_of_str s = None ->
  instance_body instance w = (Raised ValueError, w).
Proof.
  intros Hin Htag Hparse. unfold instance_body. rewrite Hin.
  unfold instance_retention_days, dict_get. rewrite Htag. simpl. rewrite Hparse.
  reflexivity.
Qed.

(** ** Well-formed stores *)

Lemma distinct_NoDup (l : list nat) : distinct l = true <-> NoDup l.
Proof.
  induction l as [|x l IH]; simpl.
  - split; [constructor | reflexivity].
  - rewrite andb_true_iff, negb_true_iff, IH, NoDup_cons. apply and_iff_compat_r.
    rewrite <- not_true_iff_false, existsb_exists, list_elem_of_In.
    split.
    + intros H Hin. apply H. exists x. split; [exact Hin | apply Nat.eqb_refl].
    + intros H [y [Hin Heq]]. apply Nat.eqb_eq in Heq. subst y. exact (H Hin).
Qed.

Lemma wf_world_spec (w : World) :
  wf_world w = true <->
  NoDup (map snap_id (w_snapshots w)) /\
  Forall (fun s => (snap_id s < w_next_id w)%nat) (w_snapshots w).
Proof.
  unfold wf_world. rewrite andb_true_iff, distinct_NoDup, forallb_forall, Forall_forall.
  apply and_iff_compat_l. split; intros H s Hs.
  - apply Nat.ltb_lt, H, list_elem_of_In, Hs.
  - apply Nat.ltb_lt, H, list_elem_of_In, Hs.
Qed.

(** ** Examining one snapshot *)

Lemma snapshot_body_skip (r : Z) (s : Snapshot) (w : World) :
  is_auto_delete s = false -> snapshot_body r s w = (Ok tt, w).
Proof. unfold snapshot_body, is_auto_delete. intros ->. reflexivity. Qed.

Lemma snapshot_body_overflow (r : Z) (s : Snapshot) (w : World) :
  is_auto_delete s = true -> Datetime.MAX_DELTA_DAYS < Z.abs r ->
  snapshot_body r s w = (Raised OverflowError, w).
Proof.
  unfold snapshot_body, is_auto_delete. intros -> Hr. simpl.
  unfold Datetime.timedelta_days. destruct (Z.leb_spec (Z.abs r) Datetime.MAX_DELTA_DAYS).
  - lia.
  - reflexivity.
Qed.

Lemma snapshot_body_examined (r : Z) (s : Snapshot) (w : World) :
  is_auto_delete s = true -> Z.abs r <= Datetime.MAX_DELTA_DAYS ->
  snapshot_body r s w =
    if w_clock w (w_tick w) - snap_start_time s >? r * Datetime.US_PER_DAY
    then delete s (advance w)
    else (Ok tt, advance w).
Proof.
  unfold snapshot_body, is_auto_delete. intros -> Hr. simpl.
  unfold Datetime.timedelta_days. destruct (Z.leb_spec (Z.abs r) Datetime.MAX_DELTA_DAYS).
  - unfold bind, lift, now, clock_read.
    destruct (w_clock w (w_tick w) - snap_start_time s >? r * Datetime.US_PER_DAY);
      reflexivity.
  - lia.
Qed.

Lemma deletes_In (cs : list ApiCall) (id : nat) :
  deletes cs id = true <-> In (DeleteSnapshot id) cs.
Proof.
  unfold deletes. rewrite existsb_exists. split.
  - intros [c [Hin Hc]]. destruct c as [| |i]; try discriminate.
    apply Nat.eqb_eq in Hc. subst i. exact Hin.
  - intros Hin. exists (DeleteSnapshot id). split; [exact Hin | apply Nat.eqb_refl].
Qed.

Lemma filter_all {A : Type} (l : list A) : List.filter (fun _ => true) l = l.
Proof. induction l as [|x l IH]; simpl; [reflexivity | rewrite IH; reflexivity]. Qed.

Lemma filter_filter {A : Type} (f g : A -> bool) (l : list A) :
  List.filter f (List.filter g l) = List.filter (fun a => g a && f a) l.
Proof.
  induction l as [|x l IH]; simpl; [reflexivity |].
  destruct (g x); simpl; [destruct (f x) |]; rewrite IH; reflexivity.
Qed.

(** ** The purge loop *)

(** What a completed pass over the listing has done: it issued deletion calls
    only, removed exactly the snapshots it asked to delete, and asked to delete
    exactly the listed snapshots whose tag value is ['true'] and whose age, at
    the instant they were examined, exceeded the retention period. *)
Lemma purge_loop (r : Z) (l : list Snapshot) :
  forall w w' : World,
    for_each l (snapshot_body r) w = (Ok tt, w') ->
    exists cs,
      w_calls w' = w_calls w ++ cs /\
      Forall (fun c => exists id, c = DeleteSnapshot id) cs /\
      w_snapshots w' =
        List.filter (fun s => negb (deletes cs (snap_id s))) (w_snapshots w) /\
      w_clock w' = w_clock w /\
      forall id,
        deletes cs id = true <->
        exists j s, l !! j = Some s /\ snap_id s = id /\ is_auto_delete s = true /\
                    examined_at w l j - snap_start_time s > r * Datetime.US_PER_DAY.
Proof.
  induction l as [|x t IH]; intros w w' H.
  - injection H as <-. exists []. rewrite app_nil_r. repeat split.
    + constructor.
    + simpl. rewrite filter_all. reflexivity.
    + discriminate.
    + intros [j [s [Hj _]]]. discriminate Hj.
  - simpl in H. apply bind_inv_ok in H as [[] [wx [Hx Ht]]].
    destruct (is_auto_delete x) eqn:Hauto.
    + destruct (Z_le_gt_dec (Z.abs r) Datetime.MAX_DELTA_DAYS) as [Hr|Hr].
      2:{ rewrite snapshot_body_overflow in Hx by (assumption || lia). discriminate Hx. }
      rewrite snapshot_body_examined in Hx by assumption.
      destruct (w_clock w (w_tick w) - snap_start_time x >? r * Datetime.US_PER_DAY)
        eqn:Hexp.
      * injection Hx as <-.
        destruct (IH _ _ Ht) as [cs [Hcalls [Hdel [Hstore [Hclock Hiff]]]]].
        exists (DeleteSnapshot (snap_id x) :: cs). simpl in *. repeat split.
        -- rewrite Hcalls, <- app_assoc. reflexivity.
        -- constructor; [eexists; reflexivity | exact Hdel].
        -- rewrite Hstore, filter_filter. apply List.filter_ext. intros s.
           rewrite negb_orb, (Nat.eqb_sym (snap_id x)). reflexivity.
        -- exact Hclock.
        -- intros Hd. apply orb_true_iff in Hd as [Hd|Hd].
           ++ apply Nat.eqb_eq in Hd. exists 0%nat, x. repeat split; try assumption.
              unfold examined_at. simpl. rewrite Nat.add_0_r. lia.
           ++ apply Hiff in Hd as [j [s [Hj [Hid [Hs Hage]]]]].
              exists (S j), s. repeat split; try assumption.
              unfold examined_at in *. simpl in *. rewrite Hauto. simpl.
              rewrite Nat.add_succ_r. exact Hage.
        -- intros [j [s [Hj [Hid [Hs Hage]]]]]. apply orb_true_iff.
           destruct j as [|j]; simpl in Hj.
           ++ left. injection Hj as <-. subst id. apply Nat.eqb_refl.
           ++ right. apply Hiff. exists j, s. repeat split; try assumption.
              unfold examined_at in *. simpl in *. rewrite Hauto in Hage. simpl in Hage.
              rewrite Nat.add_succ_r in Hage. exact Hage.
      * injection Hx as <-.
        destruct (IH _ _ Ht) as [cs [Hcalls [Hdel [Hstore [Hclock Hiff]]]]].
        exists cs. simpl in *. repeat split; try assumption.
        -- intros Hd. apply Hiff in Hd as [j [s [Hj [Hid [Hs Hage]]]]].
           exists (S j), s. repeat split; try assumption.
           unfold examined_at in *. simpl in *. rewrite Hauto. simpl.
           rewrite Nat.add_succ_r. exact Hage.
        -- intros [j [s [Hj [Hid [Hs Hage]]]]]. apply Hiff.
           destruct j as [|j]; simpl in Hj.
           ++ injection Hj as <-. unfold examined_at in Hage. simpl in Hage.
              rewrite Nat.add_0_r in Hage. lia.
           ++ exists j, s. repeat split; try assumption.
              unfold examined_at in *. simpl in *. rewrite Hauto in Hage. simpl in Hage.
              rewrite Nat.add_succ_r in Hage. exact Hage.
    + rewrite snapshot_body_skip in Hx by assumption. injection Hx as <-.
      destruct (IH _ _ Ht) as [cs [Hcalls [Hdel [Hstore [Hclock Hiff]]]]].
      exists cs. repeat split; try assumption.
      * intros Hd. apply Hiff in Hd as [j [s [Hj [Hid [Hs Hage]]]]].
        exists (S j), s. repeat split; try assumption.
        unfold examined_at in *. simpl in *. rewrite Hauto. exact Hage.
      * intros [j [s [Hj [Hid [Hs Hage]]]]]. apply Hiff.
        destruct j as [|j]; simpl in Hj.
        -- injection Hj as <-. congruence.
        -- exists j, s. repeat split; try assumption.
           unfold examined_at in *. simpl in *. rewrite Hauto in Hage. exact Hage.
Qed.

(** The clock is read once for each snapshot whose tag value is ['true']. *)
Lemma purge_loop_tick (r : Z) (l : list Snapshot) :
  forall w w' : World,
    for_each l (snapshot_body r) w = (Ok tt, w') ->
    w_tick w' = (w_tick w + List.length (List.filter is_auto_delete l))%nat.
Proof.
  induction l as [|x t IH]; intros w w' H.
  - injection H as <-. simpl. lia.
  - simpl in H. apply bind_inv_ok in H as [[] [wx [Hx Ht]]]. simpl.
    destruct (is_auto_delete x) eqn:Hauto.
    + destruct (Z_le_gt_dec (Z.abs r) Datetime.MAX_DELTA_DAYS) as [Hr|Hr].
      2:{ rewrite snapshot_body_overflow in Hx by (assumption || lia). discriminate Hx. }
      rewrite snapshot_body_examined in Hx by assumption.
      destruct (w_clock w (w_tick w) - snap_start_time x >? r * Datetime.US_PER_DAY);
        injection Hx as <-; rewrite (IH _ _ Ht); simpl; lia.
    + rewrite snapshot_body_skip in Hx by assumption. injection Hx as <-.
      exact (IH _ _ Ht).
Qed.

(** With a retention that [timedelta] accepts, the pass over the listing
    completes. *)
Lemma purge_loop_total (r : Z) (l : list Snapshot) :
  Z.abs r <= Datetime.MAX_DELTA_DAYS ->
  forall w : World, fst (for_each l (snapshot_body r) w) = Ok tt.
Proof.
  intros Hr. induction l as [|x t IH]; intros w; [reflexivity |].
  simpl. unfold bind. destruct (is_auto_delete x) eqn:Hauto.
  - rewrite snapshot_body_examined by assumption.
    destruct (w_clock w (w_tick w) - snap_start_time x >? r * Datetime.US_PER_DAY);
      apply IH.
  - rewrite snapshot_body_skip by assumption. apply IH.
Qed.

(** ** Taking a snapshot *)

Lemma calls_since_app (w w' : World) (cs : list ApiCall) :
  w_calls w' = w_calls w ++ cs -> calls_since w w' = cs.
Proof. unfold calls_since. intros ->. apply drop_app_length. Qed.

Lemma take_snapshot_frame (instance_name : PyVal) (volume : Volume) (w : World) :
  let w1 := snd (take_snapshot instance_name volume w) in
  w_calls w1 =
    w_calls w ++
      [CreateSnapshot (vol_id volume)
         (snap_description (new_snapshot_of instance_name volume w)) (w_next_id w);
       CreateTags (w_next_id w) [(DELETE_TAG, "true")]] /\
  w_tick w1 = S (S (w_tick w)) /\ w_clock w1 = w_clock w /\
  w_next_id w1 = S (w_next_id w) /\ w_instances w1 = w_instances w.
Proof.
  unfold take_snapshot, utcnow, create_snapshot, create_tags, clock_read, bind, ret.
  simpl. rewrite <- app_assoc. repeat split; reflexivity.
Qed.

Lemma take_snapshot_store (instance_name : PyVal) (volume : Volume) (w : World) :
  wf_world w = true ->
  w_snapshots (snd (take_snapshot instance_name volume w)) =
    w_snapshots w ++ [new_snapshot_of instance_name volume w].
Proof.
  intros Hwf. apply wf_world_spec in Hwf as [_ Hlt].
  unfold take_snapshot, utcnow, create_snapshot, create_tags, clock_read, bind, ret.
  simpl. rewrite map_app. simpl. rewrite Nat.eqb_refl. f_equal.
  induction Hlt as [|s l Hs _ IH]; simpl; [reflexivity |].
  rewrite IH. destruct (Nat.eqb_spec (snap_id s) (w_next_id w)); [lia | reflexivity].
Qed.

Lemma take_snapshot_wf (instance_name : PyVal) (volume : Volume) (w : World) :
  wf_world w = true -> wf_world (snd (take_snapshot instance_name volume w)) = true.
Proof.
  intros Hwf. apply wf_world_spec.
  rewrite (take_snapshot_store _ _ _ Hwf).
  destruct (take_snapshot_frame instance_name volume w) as (_ & _ & _ & -> & _).
  apply wf_world_spec in Hwf as [Hnd Hlt]. split.
  - rewrite map_app. simpl. apply NoDup_app. repeat split.
    + exact Hnd.
    + intros x Hx Hx'. apply list_elem_of_In in Hx, Hx'. simpl in Hx'.
      destruct Hx' as [<-|[]]. apply in_map_iff in Hx as [s [Hid Hs]].
      rewrite Forall_forall in Hlt. apply list_elem_of_In, Hlt in Hs. lia.
    + apply NoDup_singleton.
  - apply Forall_app. split.
    + eapply Forall_impl; [exact Hlt | intros s Hs; simpl in *; lia].
    + constructor; [simpl; lia | constructor].
Qed.

Lemma tagged_snapshots_after_take (instance_name : PyVal) (volume : Volume) (w : World) :
  wf_world w = true ->
  tagged_snapshots volume (snd (take_snapshot instance_name volume w)) =
    tagged_snapshots volume w ++ [new_snapshot_of instance_name volume w].
Proof.
  intros Hwf. unfold tagged_snapshots. rewrite (take_snapshot_store _ _ _ Hwf).
  rewrite List.filter_app. simpl. rewrite String.eqb_refl. reflexivity.
Qed.

Lemma NoDup_map_filter {A B : Type} (f : A -> B) (p : A -> bool) (l : list A) :
  NoDup (map f l) -> NoDup (map f (List.filter p l)).
Proof.
  induction l as [|x l IH]; simpl; intros H; [exact H |].
  apply NoDup_cons in H as [Hx Hl]. destruct (p x); simpl.
  - apply NoDup_cons. split; [| exact (IH Hl)].
    intros Hin. apply Hx. apply list_elem_of_In in Hin. apply list_elem_of_In.
    apply in_map_iff in Hin as [y [Hy Hin]]. apply filter_In in Hin as [Hin _].
    apply in_map_iff. exists y. split; assumption.
  - exact (IH Hl).
Qed.

Lemma lookup_unique_id (l : list Snapshot) :
  NoDup (map snap_id l) ->
  forall i j s s', l !! i = Some s -> l !! j = Some s' -> snap_id s = snap_id s' ->
                   i = j /\ s = s'.
Proof.
  induction l as [|x l IH]; intros Hnd i j s s' Hi Hj Hid; [discriminate Hi |].
  simpl in Hnd. apply NoDup_cons in Hnd as [Hx Hl].
  assert (Hmem : forall k y, l !! k = Some y -> snap_id y <> snap_id x).
  { intros k y Hk Heq. apply Hx. rewrite <- Heq. apply list_elem_of_In, in_map.
    apply list_elem_of_In. eapply list_elem_of_lookup_2. exact Hk. }
  destruct i as [|i], j as [|j]; simpl in Hi, Hj.
  - injection Hi as <-. injection Hj as <-. split; reflexivity.
  - injection Hi as <-. exfalso. exact (Hmem _ _ Hj (eq_sym Hid)).
  - injection Hj as <-. exfalso. exact (Hmem _ _ Hi Hid).
  - destruct (IH Hl i j s s' Hi Hj Hid) as [-> ->]. split; reflexivity.
Qed.

Lemma listing_ids_distinct (volume : Volume) (w : World) :
  wf_world w = true -> NoDup (map snap_id (tagged_snapshots volume w)).
Proof.
  intros Hwf. apply wf_world_spec in Hwf as [Hnd _].
  apply NoDup_map_filter, Hnd.
Qed.

(** ** Processing one volume *)

Lemma volume_body_skipped (instance_name : PyVal) (retention_days : Z)
    (volume : Volume) (w : World) :
  is_false_value (volume_make_snapshot (tags_dict (vol_tags volume))) = true ->
  volume_body instance_name retention_days volume w = (Ok tt, w).
Proof. unfold volume_body. intros ->. reflexivity. Qed.

Lemma volume_body_processed (instance_name : PyVal) (retention_days r : Z)
    (volume : Volume) (w : World) :
  is_false_value (volume_make_snapshot (tags_dict (vol_tags volume))) = false ->
  volume_retention_days (tags_dict (vol_tags volume)) retention_days = Ok r ->
  volume_body instance_name retention_days volume w =
    purge_snapshots volume r (snd (take_snapshot instance_name volume w)).
Proof.
  unfold volume_body. intros -> Hr.
  unfold take_snapshot, utcnow, create_snapshot, create_tags, clock_read, bind, ret, lift.
  rewrite Hr. reflexivity.
Qed.


Lemma purge_snapshots_unfold (volume : Volume) (r : Z) (w : World) :
  purge_snapshots volume r w =
    if Z.of_nat (List.length (tagged_snapshots volume w)) <=? MIN_RETENTION_COUNT
    then (Ok tt, w)
    else for_each (tagged_snapshots volume w) (snapshot_body r) w.
Proof.
  unfold purge_snapshots, bind, snapshots_filter. fold (tagged_snapshots volume w).
  destruct (Z.of_nat (List.length (tagged_snapshots volume w)) <=? MIN_RETENTION_COUNT);
    reflexivity.
Qed.

(** A completed processing of a volume that is not opted out: after the
    snapshot is taken, only deletions are issued, the store loses exactly the
    snapshots whose deletion was asked for, and a listed snapshot is among them
    exactly when its tag value is ['true'], it had outlived the retention period
    when it was examined, and the listing holds more than one snapshot. *)
Lemma volume_body_completed (instance_name : PyVal) (retention_days r : Z)
    (volume : Volume) (w w' : World) :
  wf_world w = true ->
  is_false_value (volume_make_snapshot (tags_dict (vol_tags volume))) = false ->
  volume_retention_days (tags_dict (vol_tags volume)) retention_days = Ok r ->
  volume_body instance_name retention_days volume w = (Ok tt, w') ->
  let w1 := snd (take_snapshot instance_name volume w) in
  let listing := tagged_snapshots volume w1 in
  exists cs,
    w_calls w' = w_calls w1 ++ cs /\
    Forall (fun c => exists id, c = DeleteSnapshot id) cs /\
    w_snapshots w' =
      List.filter (fun s => negb (deletes cs (snap_id s))) (w_snapshots w1) /\
    ((List.length listing <= 1)%nat -> cs = []) /\
    ((1 < List.length listing)%nat ->
     w_tick w' = (w_tick w1 + List.length (List.filter is_auto_delete listing))%nat) /\
    forall i s, listing !! i = Some s ->
      (deletes cs (snap_id s) = true <->
         is_auto_delete s = true /\
         examined_at w1 listing i - snap_start_time s > r * Datetime.US_PER_DAY /\
         (1 < List.length listing)%nat).
Proof.
  intros Hwf Hin Hr Hrun w1 listing.
  rewrite (volume_body_processed _ _ _ _ _ Hin Hr), purge_snapshots_unfold in Hrun.
  fold w1 in Hrun. fold listing in Hrun. unfold MIN_RETENTION_COUNT in Hrun.
  destruct (Z.leb_spec (Z.of_nat (List.length listing)) 1) as [Hlen|Hlen].
  - injection Hrun as <-. exists []. rewrite app_nil_r.
    split; [reflexivity |]. split; [constructor |].
    split; [simpl; rewrite filter_all; reflexivity |].
    split; [reflexivity |]. split; [intros; lia |]. intros i s Hs.
    split; [discriminate | intros (_ & _ & Hgt); lia].
  - destruct (purge_loop _ _ _ _ Hrun) as [cs [Hcalls [Hdel [Hstore [_ Hiff]]]]].
    exists cs. split; [exact Hcalls |]. split; [exact Hdel |].
    split; [exact Hstore |]. split; [intros; lia |].
    split; [intros _; exact (purge_loop_tick _ _ _ _ Hrun) |]. intros i s Hs. split.
    + intros Hd. apply Hiff in Hd as [j [s' [Hj [Hid [Hs' Hage]]]]].
      destruct (lookup_unique_id listing
                  (listing_ids_distinct _ _ (take_snapshot_wf _ _ _ Hwf))
                  _ _ _ _ Hj Hs Hid) as [-> ->].
      split; [exact Hs' |]. split; [exact Hage | lia].
    + intros (Ha & Hage & _). apply Hiff. exists i, s. repeat split; assumption.
Qed.

(** ** Expiry *)

(** C7. Expiry is a strict comparison.  When a snapshot whose tag value is
    ['true'] is examined, it is deleted if and only if its age, the instant read
    by [now(tz)] minus its start time, is strictly greater than the retention
    period; at an age exactly equal to the period no call is issued and the
    store is left as it was. *)
Theorem expiry_is_strict (r : Z) (s : Snapshot) (w : World) :
  is_auto_delete s = true ->
  Z.abs r <= Datetime.MAX_DELTA_DAYS ->
  let age := w_clock w (w_tick w) - snap_start_time s in
  let w' := snd (snapshot_body r s w) in
  fst (snapshot_body r s w) = Ok tt /\
  (age = r * Datetime.US_PER_DAY ->
   calls_since w w' = [] /\ w_snapshots w' = w_snapshots w) /\
  (In (DeleteSnapshot (snap_id s)) (calls_since w w') <-> age > r * Datetime.US_PER_DAY).
Proof.
  intros Hs Hr age w'. subst w'. rewrite (snapshot_body_examined _ _ _ Hs Hr).
  fold age. destruct (Z.gtb_spec age (r * Datetime.US_PER_DAY)) as [Hgt|Hle].
  - split; [reflexivity |]. split; [intros Heq; lia |].
    rewrite (calls_since_app w _ [DeleteSnapshot (snap_id s)]) by reflexivity.
    split; [intros _; lia | intros _; left; reflexivity].
  - split; [reflexivity |].
    rewrite (calls_since_app w _ []) by (simpl; rewrite app_nil_r; reflexivity).
    split; [intros _; split; reflexivity |].
    split; [intros [] | intros Hgt; lia].
Qed.

(** ** Retention resolution *)


(** ** The snapshot taken by the run and the purge that follows *)

Lemma new_snapshot_is_auto_delete (instance_name : PyVal) (volume : Volume) (w : World) :
  is_auto_delete (new_snapshot_of instance_name volume w) = true.
Proof.
  unfold is_auto_delete, auto_delete_value, new_snapshot_of. simpl snap_tags.
  vm_compute. reflexivity.
Qed.

Lemma created_calls_not_deletions (c1 c2 : ApiCall) (cs : list ApiCall) (id : nat) :
  (forall i, c1 <> DeleteSnapshot i) -> (forall i, c2 <> DeleteSnapshot i) ->
  In (DeleteSnapshot id) ([c1; c2] ++ cs) <-> deletes cs id = true.
Proof.
  intros H1 H2. rewrite deletes_In. simpl. split.
  - intros [H|[H|H]]; [exfalso; exact (H1 _ H) | exfalso; exact (H2 _ H) | exact H].
  - intros H. right. right. exact H.
Qed.

(** C2 (amended). When a processed volume has exactly one prior snapshot
    carrying the deletion tag, with value ['true'], and that snapshot has
    outlived the retention period, the run takes the new snapshot and deletes
    the prior one: the listing holds the prior snapshot and the new one, two in
    all, which is more than the floor of one. *)
Theorem single_prior_snapshot_deleted (instance_name : PyVal) (retention_days r : Z)
    (volume : Volume) (prior : Snapshot) (w : World) :
  wf_world w = true ->
  is_false_value (volume_make_snapshot (tags_dict (vol_tags volume))) = false ->
  volume_retention_days (tags_dict (vol_tags volume)) retention_days = Ok r ->
  Z.abs r <= Datetime.MAX_DELTA_DAYS ->
  tagged_snapshots volume w = [prior] ->
  is_auto_delete prior = true ->
  w_clock w (S (S (w_tick w))) - snap_start_time prior > r * Datetime.US_PER_DAY ->
  let w' := snd (volume_body instance_name retention_days volume w) in
  let new := new_snapshot_of instance_name volume w in
  fst (volume_body instance_name retention_days volume w) = Ok tt /\
  tagged_snapshots volume (snd (take_snapshot instance_name volume w)) = [prior; new] /\
  In (CreateSnapshot (vol_id volume) (snap_description new) (snap_id new))
     (calls_since w w') /\
  In (DeleteSnapshot (snap_id prior)) (calls_since w w').
Proof.
  intros Hwf Hin Hr Habs Hlist Hauto Hage w' new.
  set (w1 := snd (take_snapshot instance_name volume w)).
  assert (Hl : tagged_snapshots volume w1 = [prior; new]).
  { unfold w1. rewrite (tagged_snapshots_after_take _ _ _ Hwf), Hlist. reflexivity. }
  assert (Hok : fst (volume_body instance_name retention_days volume w) = Ok tt).
  { rewrite (volume_body_processed _ _ _ _ _ Hin Hr), purge_snapshots_unfold.
    fold w1. rewrite Hl. simpl. apply (purge_loop_total r [prior; new] Habs). }
  pose proof (run_ok _ _ _ Hok) as Hrun. fold w' in Hrun.
  destruct (volume_body_completed _ _ _ _ _ _ Hwf Hin Hr Hrun)
    as [cs [Hcalls [_ [_ [_ [_ Hiff]]]]]].
  fold w1 in Hcalls, Hiff. rewrite Hl in Hiff.
  destruct (take_snapshot_frame instance_name volume w) as (Hc1 & Ht1 & Hk1 & _).
  fold w1 in Hc1, Ht1, Hk1. rewrite Hc1, <- app_assoc in Hcalls.
  rewrite (calls_since_app _ _ _ Hcalls).
  split; [exact Hok |]. split; [exact Hl |]. split; [left; reflexivity |].
  apply created_calls_not_deletions; [discriminate | discriminate |].
  apply (Hiff 0%nat prior eq_refl). split; [exact Hauto |]. split; [| simpl; lia].
  unfold examined_at. rewrite Hk1, Ht1. simpl. rewrite Nat.add_0_r. exact Hage.
Qed.

(** C9 (amended). For a processed volume, the snapshot taken for it is not
    deleted by the purge that follows, and is still in the store when the
    volume's processing ends, provided no clock reading of the purge is later
    than the new snapshot's start time by more than the retention period. *)
Theorem new_snapshot_survives (instance_name : PyVal) (retention_days r : Z)
    (volume : Volume) (w w' : World) :
  wf_world w = true ->
  is_false_value (volume_make_snapshot (tags_dict (vol_tags volume))) = false ->
  volume_retention_days (tags_dict (vol_tags volume)) retention_days = Ok r ->
  volume_body instance_name retention_days volume w = (Ok tt, w') ->
  (forall k, (S (w_tick w) < k < w_tick w')%nat ->
             w_clock w k - w_clock w (S (w_tick w)) <= r * Datetime.US_PER_DAY) ->
  let new := new_snapshot_of instance_name volume w in
  ~ In (DeleteSnapshot (snap_id new)) (calls_since w w') /\
  In new (w_snapshots w') /\
  snap_volume_id new = vol_id volume.
Proof.
  intros Hwf Hin Hr Hrun Hclock new.
  destruct (volume_body_completed _ _ _ _ _ _ Hwf Hin Hr Hrun)
    as [cs [Hcalls [_ [Hstore [_ [Htick Hiff]]]]]].
  set (w1 := snd (take_snapshot instance_name volume w)) in *.
  pose proof (tagged_snapshots_after_take instance_name volume w Hwf) as Hl.
  fold w1 in Hl. fold new in Hl.
  destruct (take_snapshot_frame instance_name volume w) as (Hc1 & Ht1 & Hk1 & _).
  fold w1 in Hc1, Ht1, Hk1.
  assert (Hnot : deletes cs (snap_id new) = false).
  { destruct (deletes cs (snap_id new)) eqn:Hd; [exfalso | reflexivity].
    assert (Hi : tagged_snapshots volume w1 !! List.length (tagged_snapshots volume w)
                 = Some new).
    { rewrite Hl. apply list_lookup_middle. reflexivity. }
    apply (Hiff _ _ Hi) in Hd as (_ & Hage & Hlen).
    specialize (Htick Hlen). unfold examined_at in Hage.
    rewrite Hk1, Ht1 in Hage. rewrite Ht1 in Htick.
    rewrite Hl in Hage, Htick. rewrite take_app_length in Hage.
    assert (Hn : List.filter is_auto_delete [new] = [new]).
    { unfold new. cbn [List.filter].
      rewrite new_snapshot_is_auto_delete. reflexivity. }
    rewrite List.filter_app, length_app, Hn in Htick.
    change (List.length [new]) with 1%nat in Htick.
    change (snap_start_time new) with (w_clock w (S (w_tick w))) in Hage.
    specialize (Hclock (S (S (w_tick w))
                        + List.length (List.filter is_auto_delete
                                         (tagged_snapshots volume w)))%nat).
    lia. }
  split; [| split; [| reflexivity]].
  - rewrite Hc1, <- app_assoc in Hcalls. rewrite (calls_since_app _ _ _ Hcalls).
    rewrite created_calls_not_deletions, Hnot; discriminate.
  - rewrite Hstore. apply filter_In. split.
    + unfold w1. rewrite (take_snapshot_store _ _ _ Hwf).
      apply in_app_iff. right. left. reflexivity.
    + rewrite Hnot. reflexivity.
Qed.

(** ** What a run may create *)

Lemma emits_ret {A : Type} (P : ApiCall -> Prop) (a : A) : emits P (ret a).
Proof.
  intros w r w' H. injection H as <- <-. repeat split; [lia |].
  exists []. rewrite app_nil_r. split; [reflexivity | constructor].
Qed.

Lemma emits_lift {A : Type} (P : ApiCall -> Prop) (r : Result A) : emits P (lift r).
Proof.
  intros w r' w' H. injection H as <- <-. repeat split; [lia |].
  exists []. rewrite app_nil_r. split; [reflexivity | constructor].
Qed.

Lemma emits_bind {A B : Type} (P : ApiCall -> Prop) (m : M A) (k : A -> M B) :
  emits P m -> (forall a, emits P (k a)) -> emits P (bind m k).
Proof.
  intros Hm Hk w r w' H. unfold bind in H.
  destruct (m w) as [[a|e] w1] eqn:E.
  - destruct (Hm _ _ _ E) as (Hi & Hc & Ht & cs & Hcs & HP).
    destruct (Hk a _ _ _ H) as (Hi' & Hc' & Ht' & cs' & Hcs' & HP').
    split; [congruence |]. split; [congruence |]. split; [lia |].
    exists (cs ++ cs'). split; [rewrite Hcs', Hcs, app_assoc; reflexivity |].
    apply Forall_app. split; assumption.
  - injection H as <- <-. exact (Hm _ _ _ E).
Qed.

Lemma emits_for_each {A : Type} (P : ApiCall -> Prop) (body : A -> M unit) (l : list A) :
  (forall x, In x l -> emits P (body x)) -> emits P (for_each l body).
Proof.
  induction l as [|x l IH]; intros H; simpl.
  - apply emits_ret.
  - apply emits_bind; [apply H; left; reflexivity |].
    intros _. apply IH. intros y Hy. apply H. right. exact Hy.
Qed.

Lemma emits_impl {A : Type} (P Q : ApiCall -> Prop) (m : M A) :
  (forall c, P c -> Q c) -> emits P m -> emits Q m.
Proof.
  intros HPQ Hm w r w' H. destruct (Hm _ _ _ H) as (Hi & Hc & Ht & cs & Hcs & HP).
  repeat split; try assumption. exists cs. split; [exact Hcs |].
  eapply Forall_impl; [exact HP | exact HPQ].
Qed.

Lemma emits_clock_read (P : ApiCall -> Prop) : emits P clock_read.
Proof.
  intros w r w' H. injection H as <- <-. simpl. repeat split; [lia |].
  exists []. rewrite app_nil_r. split; [reflexivity | constructor].
Qed.

Lemma emits_snapshots_filter (P : ApiCall -> Prop) (volume : Volume) (key : string) :
  emits P (snapshots_filter volume key).
Proof.
  intros w r w' H. injection H as <- <-. repeat split; [lia |].
  exists []. rewrite app_nil_r. split; [reflexivity | constructor].
Qed.

Lemma emits_create_snapshot (P : ApiCall -> Prop) (volume : Volume) (description : string) :
  (forall id, P (CreateSnapshot (vol_id volume) description id)) ->
  emits P (create_snapshot volume description).
Proof.
  intros HP. unfold create_snapshot. apply emits_bind; [apply emits_clock_read |].
  intros start w r w' H. injection H as <- <-. simpl. repeat split; [lia |].
  eexists. split; [reflexivity |]. constructor; [apply HP | constructor].
Qed.

Lemma emits_create_tags (P : ApiCall -> Prop) (snapshot : Snapshot) (tags : list Tag) :
  P (CreateTags (snap_id snapshot) tags) -> emits P (create_tags snapshot tags).
Proof.
  intros HP w r w' H. injection H as <- <-. simpl. repeat split; [lia |].
  eexists. split; [reflexivity |]. constructor; [exact HP | constructor].
Qed.

Lemma emits_delete (P : ApiCall -> Prop) (snapshot : Snapshot) :
  P (DeleteSnapshot (snap_id snapshot)) -> emits P (delete snapshot).
Proof.
  intros HP w r w' H. injection H as <- <-. simpl. repeat split; [lia |].
  eexists. split; [reflexivity |]. constructor; [exact HP | constructor].
Qed.

Lemma emits_snapshot_body (P : ApiCall -> Prop) (r : Z) (snapshot : Snapshot) :
  (forall id, P (DeleteSnapshot id)) -> emits P (snapshot_body r snapshot).
Proof.
  intros HP. unfold snapshot_body.
  destruct (negb (auto_delete_value snapshot =? "true")%string); [apply emits_ret |].
  apply emits_bind; [apply emits_lift |]. intros retention.
  apply emits_bind; [apply emits_clock_read |]. intros t.
  destruct (negb (t - snap_start_time snapshot >? retention));
    [apply emits_ret | apply emits_delete, HP].
Qed.

Lemma emits_volume_body (instance_name : PyVal) (retention_days : Z) (volume : Volume) :
  emits (volume_call_ok volume) (volume_body instance_name retention_days volume).
Proof.
  unfold volume_body.
  destruct (is_false_value (volume_make_snapshot (tags_dict (vol_tags volume)))) eqn:Hin;
    [apply emits_ret |].
  apply emits_bind.
  - unfold take_snapshot, utcnow.
    apply emits_bind; [apply emits_bind; [apply emits_clock_read | intros; apply emits_ret] |].
    intros dt. apply emits_bind.
    + apply emits_create_snapshot. intros id. split; [reflexivity | exact Hin].
    + intros new. apply emits_bind; [apply emits_create_tags; exact I |].
      intros _. apply emits_ret.
  - intros _. apply emits_bind; [apply emits_lift |]. intros r.
    unfold purge_snapshots. apply emits_bind; [apply emits_snapshots_filter |].
    intros snapshots.
    destruct (Z.of_nat (List.length snapshots) <=? MIN_RETENTION_COUNT); [apply emits_ret |].
    apply emits_for_each. intros s _. apply emits_snapshot_body. intros id. exact I.
Qed.

Lemma emits_instance_body (w : World) (instance : Instance) :
  In instance (selected_instances w) ->
  emits (creation_justified w) (instance_body instance).
Proof.
  intros Hsel. unfold instance_body.
  destruct (is_false_value (instance_make_snapshot (tags_dict (inst_tags instance))))
    eqn:Hin; [apply emits_ret |].
  apply emits_bind; [apply emits_lift |]. intros r.
  apply emits_for_each. intros volume Hv.
  eapply emits_impl; [| apply emits_volume_body].
  intros [vid d id| |]; simpl; [| trivial | trivial].
  intros [Hid Hvol]. exists instance, volume. repeat split; assumption.
Qed.

(** Every call of a completed loop was issued by the body on one of the
    elements, somewhere between the start and the end of the loop. *)
Lemma for_each_reaches {A : Type} (P : ApiCall -> Prop) (body : A -> M unit) (l : list A) :
  (forall x, In x l -> emits P (body x)) ->
  forall w w', for_each l body w = (Ok tt, w') ->
  forall x, In x l ->
  exists wa wb pre mid post,
    body x wa = (Ok tt, wb) /\
    w_calls wa = w_calls w ++ pre /\
    w_calls wb = w_calls wa ++ mid /\
    w_calls w' = w_calls wb ++ post.
Proof.
  induction l as [|y l IH]; intros Hbody w w' H x Hx; [destruct Hx |].
  simpl in H. apply bind_inv_ok in H as [[] [wy [Hy Hl]]].
  assert (Hrest : emits P (for_each l body)).
  { apply emits_for_each. intros z Hz. apply Hbody. right. exact Hz. }
  destruct (Hbody y (or_introl eq_refl) _ _ _ Hy) as (_ & _ & _ & cy & Hcy & _).
  destruct Hx as [<-|Hx].
  - destruct (Hrest _ _ _ Hl) as (_ & _ & _ & cl & Hcl & _).
    exists w, wy, [], cy, cl. rewrite app_nil_r. repeat split; assumption.
  - destruct (IH (fun z Hz => Hbody z (or_intror Hz)) _ _ Hl x Hx)
      as (wa & wb & pre & mid & post & Hx' & Hpre & Hmid & Hpost).
    exists wa, wb, (cy ++ pre), mid, post. repeat split; try assumption.
    rewrite Hpre, Hcy, app_assoc. reflexivity.
Qed.

Lemma calls_since_middle (w wa wb w' : World) (pre mid post : list ApiCall) (c : ApiCall) :
  w_calls wa = w_calls w ++ pre ->
  w_calls wb = w_calls wa ++ mid ->
  w_calls w' = w_calls wb ++ post ->
  In c mid -> In c (calls_since w w').
Proof.
  intros Hpre Hmid Hpost Hc.
  rewrite (calls_since_app w w' (pre ++ mid ++ post)).
  - apply in_app_iff. right. apply in_app_iff. left. exact Hc.
  - rewrite Hpost, Hmid, Hpre, <- !app_assoc. reflexivity.
Qed.

Lemma emits_purge_snapshots (P : ApiCall -> Prop) (volume : Volume) (r : Z) :
  (forall id, P (DeleteSnapshot id)) -> emits P (purge_snapshots volume r).
Proof.
  intros HP. unfold purge_snapshots.
  apply emits_bind; [apply emits_snapshots_filter |]. intros snapshots.
  destruct (Z.of_nat (List.length snapshots) <=? MIN_RETENTION_COUNT); [apply emits_ret |].
  apply emits_for_each. intros s _. apply emits_snapshot_body, HP.
Qed.

Lemma take_snapshot_result (instance_name : PyVal) (volume : Volume) (w : World) :
  fst (take_snapshot instance_name volume w) =
    Ok (mk_snapshot (w_next_id w) (vol_id volume)
          (snap_description (new_snapshot_of instance_name volume w))
          (w_clock w (S (w_tick w))) None).
Proof. reflexivity. Qed.

(** A volume that is not opted out gets its snapshot, whatever happens next. *)
Lemma volume_body_creates (instance_name : PyVal) (retention_days : Z)
    (volume : Volume) (w w' : World) (res : Result unit) :
  is_false_value (volume_make_snapshot (tags_dict (vol_tags volume))) = false ->
  volume_body instance_name retention_days volume w = (res, w') ->
  exists cs,
    w_calls w' =
      w_calls w ++
        CreateSnapshot (vol_id volume)
          (snap_description (new_snapshot_of instance_name volume w)) (w_next_id w)
        :: cs.
Proof.
  intros Hin H. unfold volume_body in H. rewrite Hin in H. unfold bind at 1 in H.
  pose proof (take_snapshot_result instance_name volume w) as Hfst.
  destruct (take_snapshot_frame instance_name volume w) as (Hc1 & _).
  destruct (take_snapshot instance_name volume w) as [res1 w1]. simpl in Hfst, Hc1.
  subst res1.
  assert (Hrest : emits (fun _ => True)
                    (volume_retention_days <-
                       lift (volume_retention_days (tags_dict (vol_tags volume))
                               retention_days) ;;
                     purge_snapshots volume volume_retention_days)).
  { apply emits_bind; [apply emits_lift |]. intros r.
    apply emits_purge_snapshots. trivial. }
  destruct (Hrest _ _ _ H) as (_ & _ & _ & cs & Hcs & _).
  eexists. rewrite Hcs, Hc1, <- app_assoc. reflexivity.
Qed.

Lemma untagged_volume_not_opted_out (volume : Volume) :
  tags_dict (vol_tags volume) !! SNAPSHOT_TAG = None ->
  is_false_value (volume_make_snapshot (tags_dict (vol_tags volume))) = false.
Proof. unfold volume_make_snapshot, dict_get. intros ->. reflexivity. Qed.

Lemma lambda_handler_unfold (event context : PyVal) (w : World) :
  lambda_handler event context w =
    match for_each (selected_instances w) instance_body w with
    | (Ok _, w') => (Ok true, w')
    | (Raised e, w') => (Raised e, w')
    end.
Proof.
  unfold lambda_handler. rewrite (bind_ok _ _ _ _ _ (instances_filter_selected w)).
  unfold bind. destruct (for_each (selected_instances w) instance_body w) as [[[]|e] w'];
    reflexivity.
Qed.

(** ** Opting out, and opting in by default *)

(** Every creation of a run, completed or not, is for a volume that the
    handler reads as not opted out, of a selected instance that it reads as not
    opted out. *)
Lemma run_creations_justified (event context : PyVal) (w : World) :
  Forall (creation_justified w)
         (calls_since w (snd (lambda_handler event context w))).
Proof.
  rewrite lambda_handler_unfold.
  assert (Hall : emits (creation_justified w)
                   (for_each (selected_instances w) instance_body)).
  { apply emits_for_each. intros i Hi. apply emits_instance_body, Hi. }
  destruct (for_each (selected_instances w) instance_body w) as [res w1] eqn:Hrun.
  destruct (Hall _ _ _ Hrun) as (_ & _ & _ & cs & Hcs & HP).
  assert (Hsnd : snd (match res with
                      | Ok _ => (Ok true, w1)
                      | Raised e => (Raised e, w1)
                      end) = w1) by (destruct res; reflexivity).
  rewrite Hsnd, (calls_since_app _ _ _ Hcs). exact HP.
Qed.

(** In a completed run, a volume whose dict has no [MakeSnapshot] entry, on a
    selected instance that the handler does not skip, has had a snapshot
    created. *)
Lemma untagged_volume_gets_snapshot (event context : PyVal) (w : World)
    (instance : Instance) (volume : Volume) :
  fst (lambda_handler event context w) = Ok true ->
  In instance (selected_instances w) ->
  is_false_value (instance_make_snapshot (tags_dict (inst_tags instance))) = false ->
  In volume (inst_volumes instance) ->
  tags_dict (vol_tags volume) !! SNAPSHOT_TAG = None ->
  exists description id,
    In (CreateSnapshot (vol_id volume) description id)
       (calls_since w (snd (lambda_handler event context w))).
Proof.
  intros Hok Hsel Hin Hvol Hnone. rewrite lambda_handler_unfold in *.
  destruct (for_each (selected_instances w) instance_body w) as [[[]|e] w1] eqn:Hrun;
    [| discriminate Hok].
  simpl.
  destruct (for_each_reaches _ _ _ (fun i Hi => emits_instance_body w i Hi)
              _ _ Hrun instance Hsel)
    as (wa & wb & pre & mid & post & Hbody & Hpre & Hmid & Hpost).
  unfold instance_body in Hbody. rewrite Hin in Hbody.
  apply bind_inv_ok in Hbody as (r & wa' & Hr & Hvols).
  assert (wa' = wa) as -> by (unfold lift in Hr; congruence).
  destruct (for_each_reaches (fun _ => True) _ _
              (fun x _ => emits_impl _ _ _ (fun _ _ => I) (emits_volume_body _ r x))
              _ _ Hvols volume Hvol)
    as (wc & wd & pre' & mid' & post' & Hbody' & Hpre' & Hmid' & Hpost').
  destruct (volume_body_creates _ _ _ _ _ _
              (untagged_volume_not_opted_out _ Hnone) Hbody') as [cs Hcs].
  eexists _, _.
  eapply (calls_since_middle w wa wb w1); [exact Hpre | exact Hmid | exact Hpost |].
  rewrite <- (calls_since_app wa wb mid Hmid).
  eapply (calls_since_middle wa wc wd wb); [exact Hpre' | exact Hmid' | exact Hpost' |].
  rewrite Hcs in Hmid'. apply app_inv_head in Hmid'. rewrite <- Hmid'.
  left. reflexivity.
Qed.

(** ** The description of a new snapshot *)

Lemma contains_app (c : ascii) (a b : string) :
  contains c (a +:+ b) = contains c a || contains c b.
Proof.
  induction a as [|x a IH]; simpl; [reflexivity |].
  rewrite IH, orb_assoc. reflexivity.
Qed.

Lemma rsplit_last_none (sep : ascii) (s : string) :
  contains sep s = false -> Py.rsplit_last sep s = None.
Proof.
  induction s as [|c s IH]; simpl; [reflexivity |].
  intros H. apply orb_false_iff in H as [Hc Hs]. rewrite (IH Hs), Hc. reflexivity.
Qed.

Lemma rsplit_last_app (sep : ascii) (h t : string) :
  contains sep t = false ->
  Py.rsplit_last sep (h +:+ String sep t) = Some (h, t).
Proof.
  intros Ht. induction h as [|c h IH]; simpl.
  - rewrite (rsplit_last_none _ _ Ht), Ascii.eqb_refl. reflexivity.
  - rewrite IH. reflexivity.
Qed.

Lemma string_of_uint_no_dot (d : Decimal.uint) :
  contains "." (NilEmpty.string_of_uint d) = false.
Proof. induction d; simpl; try assumption; reflexivity. Qed.

Lemma zeros_no_dot (n : nat) :
  contains "." (string_of_list_ascii (repeat "0"%char n)) = false.
Proof. induction n as [|n IH]; simpl; [reflexivity | exact IH]. Qed.

Lemma zfill_no_dot (width : nat) (n : Z) : contains "." (Py.zfill width n) = false.
Proof.
  unfold Py.zfill. rewrite contains_app, zeros_no_dot. simpl.
  unfold NilZero.string_of_uint. destruct (N.to_uint (Z.to_N n)) eqn:E;
    try reflexivity; rewrite <- E; apply string_of_uint_no_dot.
Qed.

Lemma isoformat_seconds_no_dot (dt : Datetime.datetime) :
  contains "." (Datetime.isoformat_seconds dt) = false.
Proof.
  unfold Datetime.isoformat_seconds.
  rewrite !contains_app, !zfill_no_dot. reflexivity.
Qed.

Lemma append_empty_r (s : string) : s +:+ "" = s.
Proof.
  induction s as [|c s IH]; [reflexivity |].
  change (String c s +:+ "") with (String c (s +:+ "")). rewrite IH. reflexivity.
Qed.

Lemma microsecond_utcfromtimestamp (t : Z) :
  Datetime.microsecond (Datetime.utcfromtimestamp t) = t mod Datetime.US_PER_SECOND.
Proof.
  unfold Datetime.utcfromtimestamp.
  destruct (Datetime.ord2ymd _) as [[y m] d]. reflexivity.
Qed.

(** When the microsecond field is not zero, the description ends with the
    time truncated to whole seconds. *)
Lemma description_with_timestamp (instance_name : PyVal) (volume : Volume)
    (dt : Datetime.datetime) :
  Datetime.microsecond dt <> 0 ->
  snapshot_description instance_name volume dt =
    Py.format3 (Py.str instance_name) (vol_id volume) (Datetime.isoformat_seconds dt).
Proof.
  intros Hus. unfold snapshot_description, Datetime.isoformat, Py.rpartition.
  destruct (Z.eqb_spec (Datetime.microsecond dt) 0) as [H0|_]; [contradiction |].
  change ("." +:+ Py.zfill 6 (Datetime.microsecond dt))
    with (String "." (Py.zfill 6 (Datetime.microsecond dt))).
  rewrite rsplit_last_app by apply zfill_no_dot. reflexivity.
Qed.

(** When the microsecond field is zero, [isoformat()] has no ['.'], so that
    [rpartition('.')[0]] is the empty string. *)
Lemma description_on_whole_second (instance_name : PyVal) (volume : Volume)
    (dt : Datetime.datetime) :
  Datetime.microsecond dt = 0 ->
  snapshot_description instance_name volume dt =
    Py.str instance_name +:+ "." +:+ vol_id volume +:+ ".".
Proof.
  intros Hus. unfold snapshot_description, Datetime.isoformat, Py.rpartition.
  rewrite Hus. simpl (0 =? 0). cbv iota. rewrite append_empty_r.
  rewrite rsplit_last_none by apply isoformat_seconds_no_dot.
  unfold Py.format3. simpl fst. reflexivity.
Qed.

(** C3 fails on the code.  When the clock is read on a whole second, the
    snapshot the run creates is described by the instance name and the volume
    identifier followed by a ['.'] and nothing else: the timestamp is
    missing. *)
Theorem whole_second_description_has_no_timestamp (instance_name : PyVal)
    (retention_days : Z) (volume : Volume) (w w' : World) (res : Result unit) :
  is_false_value (volume_make_snapshot (tags_dict (vol_tags volume))) = false ->
  w_clock w (w_tick w) mod Datetime.US_PER_SECOND = 0 ->
  volume_body instance_name retention_days volume w = (res, w') ->
  In (CreateSnapshot (vol_id volume)
        (Py.str instance_name +:+ "." +:+ vol_id volume +:+ ".") (w_next_id w))
     (calls_since w w').
Proof.
  intros Hin Hus Hrun.
  destruct (volume_body_creates _ _ _ _ _ _ Hin Hrun) as [cs Hcs].
  rewrite (calls_since_app _ _ _ Hcs). left. f_equal.
  unfold new_snapshot_of. simpl snap_description.
  apply description_on_whole_second.
  rewrite microsecond_utcfromtimestamp. exact Hus.
Qed.

(** ** From the run to the processing of one volume *)

Lemma keeps_wf_ret {A : Type} (a : A) : keeps_wf (ret a).
Proof. intros w r w' Hwf H. injection H as <- <-. exact Hwf. Qed.

Lemma keeps_wf_lift {A : Type} (r : Result A) : keeps_wf (lift r).
Proof. intros w r' w' Hwf H. injection H as <- <-. exact Hwf. Qed.

Lemma keeps_wf_bind {A B : Type} (m : M A) (k : A -> M B) :
  keeps_wf m -> (forall a, keeps_wf (k a)) -> keeps_wf (bind m k).
Proof.
  intros Hm Hk w r w' Hwf H. unfold bind in H.
  destruct (m w) as [[a|e] w1] eqn:E.
  - exact (Hk a _ _ _ (Hm _ _ _ Hwf E) H).
  - injection H as <- <-. exact (Hm _ _ _ Hwf E).
Qed.

Lemma keeps_wf_for_each {A : Type} (body : A -> M unit) (l : list A) :
  (forall x, In x l -> keeps_wf (body x)) -> keeps_wf (for_each l body).
Proof.
  induction l as [|x l IH]; intros H; simpl.
  - apply keeps_wf_ret.
  - apply keeps_wf_bind; [apply H; left; reflexivity |].
    intros _. apply IH. intros y Hy. apply H. right. exact Hy.
Qed.

Lemma keeps_wf_clock_read : keeps_wf clock_read.
Proof. intros w r w' Hwf H. injection H as <- <-. exact Hwf. Qed.

Lemma keeps_wf_delete (snapshot : Snapshot) : keeps_wf (delete snapshot).
Proof.
  intros w r w' Hwf H. injection H as <- <-.
  apply wf_world_spec in Hwf as [Hnd Hlt]. apply wf_world_spec. simpl. split.
  - apply NoDup_map_filter, Hnd.
  - rewrite Forall_forall in *. intros s Hs. apply Hlt.
    apply list_elem_of_In in Hs. apply filter_In in Hs as [Hs _].
    apply list_elem_of_In, Hs.
Qed.

Lemma keeps_wf_snapshot_body (r : Z) (snapshot : Snapshot) :
  keeps_wf (snapshot_body r snapshot).
Proof.
  unfold snapshot_body.
  destruct (negb (auto_delete_value snapshot =? "true")%string); [apply keeps_wf_ret |].
  apply keeps_wf_bind; [apply keeps_wf_lift |]. intros retention.
  apply keeps_wf_bind; [apply keeps_wf_clock_read |]. intros t.
  destruct (negb (t - snap_start_time snapshot >? retention));
    [apply keeps_wf_ret | apply keeps_wf_delete].
Qed.

Lemma keeps_wf_purge_snapshots (volume : Volume) (r : Z) :
  keeps_wf (purge_snapshots volume r).
Proof.
  unfold purge_snapshots. apply keeps_wf_bind.
  - intros w r' w' Hwf H. injection H as <- <-. exact Hwf.
  - intros snapshots.
    destruct (Z.of_nat (List.length snapshots) <=? MIN_RETENTION_COUNT);
      [apply keeps_wf_ret |].
    apply keeps_wf_for_each. intros s _. apply keeps_wf_snapshot_body.
Qed.

Lemma keeps_wf_take_snapshot (instance_name : PyVal) (volume : Volume) :
  keeps_wf (take_snapshot instance_name volume).
Proof.
  intros w r w' Hwf H. pose proof (take_snapshot_wf instance_name volume w Hwf) as Hwf'.
  rewrite H in Hwf'. exact Hwf'.
Qed.

Lemma keeps_wf_volume_body (instance_name : PyVal) (retention_days : Z) (volume : Volume) :
  keeps_wf (volume_body instance_name retention_days volume).
Proof.
  unfold volume_body.
  destruct (is_false_value (volume_make_snapshot (tags_dict (vol_tags volume))));
    [apply keeps_wf_ret |].
  apply keeps_wf_bind; [apply keeps_wf_take_snapshot |]. intros _.
  apply keeps_wf_bind; [apply keeps_wf_lift |]. intros r.
  apply keeps_wf_purge_snapshots.
Qed.

Lemma keeps_wf_instance_body (instance : Instance) : keeps_wf (instance_body instance).
Proof.
  unfold instance_body.
  destruct (is_false_value (instance_make_snapshot (tags_dict (inst_tags instance))));
    [apply keeps_wf_ret |].
  apply keeps_wf_bind; [apply keeps_wf_lift |]. intros r.
  apply keeps_wf_for_each. intros v _. apply keeps_wf_volume_body.
Qed.

(** [for_each_reaches], with the store well formed and the clock unchanged
    where the body starts on the element. *)
Lemma for_each_reaches_wf {A : Type} (P : ApiCall -> Prop) (body : A -> M unit)
    (l : list A) :
  (forall x, In x l -> emits P (body x)) ->
  (forall x, In x l -> keeps_wf (body x)) ->
  forall w w', wf_world w = true -> for_each l body w = (Ok tt, w') ->
  forall x, In x l ->
  exists wa wb pre mid post,
    body x wa = (Ok tt, wb) /\
    wf_world wa = true /\
    w_clock wa = w_clock w /\
    w_calls wa = w_calls w ++ pre /\
    w_calls wb = w_calls wa ++ mid /\
    w_calls w' = w_calls wb ++ post.
Proof.
  induction l as [|y l IH]; intros Hbody Hkeeps w w' Hwf H x Hx; [destruct Hx |].
  simpl in H. apply bind_inv_ok in H as [[] [wy [Hy Hl]]].
  assert (Hrest : emits P (for_each l body)).
  { apply emits_for_each. intros z Hz. apply Hbody. right. exact Hz. }
  destruct (Hbody y (or_introl eq_refl) _ _ _ Hy) as (_ & Hclk & _ & cy & Hcy & _).
  destruct Hx as [<-|Hx].
  - destruct (Hrest _ _ _ Hl) as (_ & _ & _ & cl & Hcl & _).
    exists w, wy, [], cy, cl. rewrite app_nil_r. repeat split; assumption.
  - destruct (IH (fun z Hz => Hbody z (or_intror Hz))
                 (fun z Hz => Hkeeps z (or_intror Hz)) _ _
                 (Hkeeps y (or_introl eq_refl) _ _ _ Hwf Hy) Hl x Hx)
      as (wa & wb & pre & mid & post & Hx' & Hwfa & Hclka & Hpre & Hmid & Hpost).
    exists wa, wb, (cy ++ pre), mid, post. repeat split; try assumption.
    + congruence.
    + rewrite Hpre, Hcy, app_assoc. reflexivity.
Qed.

(** In a completed run, every volume of every selected instance that is not
    opted out has been handed to [volume_body], with the instance's name and
    retention, in a well-formed world of the run; the calls of that processing
    are a segment of the calls of the run.  The statements about the
    processing of one volume therefore speak about every volume of a run. *)
Lemma completed_run_processes_volume (event context : PyVal) (w w' : World)
    (instance : Instance) (volume : Volume) :
  wf_world w = true ->
  lambda_handler event context w = (Ok true, w') ->
  In instance (selected_instances w) ->
  is_false_value (instance_make_snapshot (tags_dict (inst_tags instance))) = false ->
  In volume (inst_volumes instance) ->
  exists retention_days wa wb pre mid post,
    instance_retention_days (tags_dict (inst_tags instance)) = Ok retention_days /\
    volume_body (dict_get (tags_dict (inst_tags instance)) "Name" (PStr (inst_id instance)))
                retention_days volume wa = (Ok tt, wb) /\
    wf_world wa = true /\
    w_clock wa = w_clock w /\
    w_calls wa = w_calls w ++ pre /\
    w_calls wb = w_calls wa ++ mid /\
    w_calls w' = w_calls wb ++ post.
Proof.
  intros Hwf Hrun Hsel Hin Hvol. rewrite lambda_handler_unfold in Hrun.
  destruct (for_each (selected_instances w) instance_body w) as [[[]|e] w1] eqn:Hloop;
    [| discriminate Hrun].
  injection Hrun as <-.
  destruct (for_each_reaches_wf _ _ _ (fun i Hi => emits_instance_body w i Hi)
              (fun i _ => keeps_wf_instance_body i) _ _ Hwf Hloop instance Hsel)
    as (wa & wb & pre & mid & post & Hbody & Hwfa & Hclka & Hpre & Hmid & Hpost).
  unfold instance_body in Hbody. rewrite Hin in Hbody.
  apply bind_inv_ok in Hbody as (r & wa' & Hr & Hvols).
  assert (wa' = wa) as -> by (unfold lift in Hr; congruence).
  assert (Hret : instance_retention_days (tags_dict (inst_tags instance)) = Ok r)
    by (unfold lift in Hr; congruence).
  destruct (for_each_reaches_wf (fun _ => True) _ _
              (fun x _ => emits_impl _ _ _ (fun _ _ => I) (emits_volume_body _ r x))
              (fun x _ => keeps_wf_volume_body _ r x)
              _ _ Hwfa Hvols volume Hvol)
    as (wc & wd & pre' & mid' & post' & Hbody' & Hwfc & Hclkc & Hpre' & Hmid' & Hpost').
  exists r, wc, wd, (pre ++ pre'), mid', (post' ++ post).
  split; [exact Hret |]. split; [exact Hbody' |]. split; [exact Hwfc |].
  split; [congruence |]. split; [| split; [exact Hmid' |]].
  - rewrite Hpre', Hpre, app_assoc. reflexivity.
  - rewrite Hpost, Hpost', app_assoc. reflexivity.
Qed.

(** * Further properties of the handler and of [tags_dict] *)

(** ** [tags_dict] *)

Lemma tags_dict_snoc (ts : list Tag) (t : Tag) :
  tags_dict (Some (ts ++ [t])) = <[fst t := snd t]> (tags_dict (Some ts)).
Proof. unfold tags_dict. rewrite foldl_app. reflexivity. Qed.

Lemma tags_dict_lookup (ts : list Tag) (key : string) :
  tags_dict (Some ts) !! key
  = option_map snd (find (fun t => String.eqb (fst t) key) (rev ts)).
Proof.
  induction ts as [|t ts IH] using rev_ind; [reflexivity |].
  rewrite tags_dict_snoc, rev_unit. simpl.
  destruct (String.eqb_spec (fst t) key) as [<-|Hne].
  - apply lookup_insert_eq.
  - rewrite lookup_insert_ne by exact Hne. exact IH.
Qed.

Lemma has_tag_key_lookup (key : string) (tags : option (list Tag)) :
  has_tag_key key tags = true <-> exists v, tags_dict tags !! key = Some v.
Proof.
  destruct tags as [ts|].
  2:{ split; [discriminate | intros [v Hv]; discriminate Hv]. }
  unfold has_tag_key. induction ts as [|t ts IH] using rev_ind.
  - split; [discriminate | intros [v Hv]; discriminate Hv].
  - rewrite existsb_app, tags_dict_snoc. cbn [existsb].
    rewrite orb_false_r, orb_true_iff, IH.
    destruct (String.eqb_spec (fst t) key) as [<-|Hne].
    + rewrite lookup_insert_eq. split; [intros _; eexists; reflexivity | intros _; right; reflexivity].
    + rewrite lookup_insert_ne by exact Hne.
      split; [intros [H|H]; [exact H | discriminate H] | intros H; left; exact H].
Qed.

(** X1. [tags_dict] maps a key to the value of the last tag of the list that
    has this key, and leaves out the keys that no tag has; [None] gives the
    empty dict, as the empty list does. *)
Theorem tags_dict_last_wins (ts : list Tag) (key : string) :
  tags_dict (Some ts) !! key
    = option_map snd (find (fun t => String.eqb (fst t) key) (rev ts)) /\
  tags_dict None = tags_dict (Some []).
Proof. split; [apply tags_dict_lookup | reflexivity]. Qed.

(** X2. The defaults for an absent tag at lines 31 and 63 are never read: an
    instance that the handler selects has a [MakeSnapshot] entry in its dict,
    and a snapshot that the purge lists has an [AutoDelete] entry; the value
    tested is the entry's, lower-cased. *)
Theorem tag_defaults_never_read (w : World) (instance : Instance) (volume : Volume)
    (snapshot : Snapshot) :
  In instance (selected_instances w) ->
  In snapshot (tagged_snapshots volume w) ->
  (exists v, tags_dict (inst_tags instance) !! SNAPSHOT_TAG = Some v /\
             instance_make_snapshot (tags_dict (inst_tags instance)) = Py.lower v) /\
  (exists v, tags_dict (snap_tags snapshot) !! DELETE_TAG = Some v /\
             auto_delete_value snapshot = Py.lower v).
Proof.
  intros Hi Hs. split.
  - apply filter_In in Hi as [_ Hi]. apply andb_true_iff in Hi as [Hkey _].
    apply has_tag_key_lookup in Hkey as [v Hv]. exists v. split; [exact Hv |].
    unfold instance_make_snapshot, dict_get. rewrite Hv. reflexivity.
  - apply filter_In in Hs as [_ Hs]. apply andb_true_iff in Hs as [_ Hkey].
    apply has_tag_key_lookup in Hkey as [v Hv]. exists v. split; [exact Hv |].
    unfold auto_delete_value, dict_get. rewrite Hv. reflexivity.
Qed.

(** ** Runs that have nothing to do *)

(** X3. When no instance of the cloud is both running and tagged with the
    [MakeSnapshot] key, the handler issues no call, leaves the world as it was
    and returns [True]. *)
Theorem nothing_selected_nothing_done (event context : PyVal) (w : World) :
  (forall i, In i (w_instances w) ->
             inst_state i <> "running" \/ has_tag_key SNAPSHOT_TAG (inst_tags i) = false) ->
  lambda_handler event context w = (Ok true, w).
Proof.
  intros H. rewrite lambda_handler_unfold.
  assert (Hsel : selected_instances w = []).
  { unfold selected_instances. induction (w_instances w) as [|i l IH]; [reflexivity |].
    simpl. destruct (H i (or_introl eq_refl)) as [Hstate|Hkey].
    - destruct (String.eqb_spec (inst_state i) "running") as [Heq|_]; [contradiction |].
      rewrite andb_false_r. apply IH. intros j Hj. apply H. right. exact Hj.
    - rewrite Hkey. simpl. apply IH. intros j Hj. apply H. right. exact Hj. }
  rewrite Hsel. reflexivity.
Qed.

(** ** Every new snapshot is tagged at once *)

Lemma tagged_on_creation_app (a b : list ApiCall) :
  tagged_on_creation a = true -> tagged_on_creation b = true ->
  tagged_on_creation (a ++ b) = true.
Proof.
  intros Ha Hb.
  assert (H : forall n l, (List.length l <= n)%nat -> tagged_on_creation l = true ->
                          tagged_on_creation (l ++ b) = true).
  { induction n as [|n IH]; intros l Hlen Hl.
    - destruct l; [exact Hb | simpl in Hlen; lia].
    - destruct l as [|c l]; [exact Hb |].
      destruct c as [vid d id|id tags|id]; simpl in *.
      + destruct l as [|[vid' d' id'|id' tags|id'] l]; try discriminate Hl. simpl in *.
        apply andb_true_iff in Hl as [Hhead Hl]. rewrite Hhead. simpl.
        apply IH; [lia | exact Hl].
      + apply IH; [lia | exact Hl].
      + apply IH; [lia | exact Hl]. }
  exact (H (List.length a) a (le_n _) Ha).
Qed.

Lemma tagged_on_creation_next (cs pre post : list ApiCall) (vid d : string) (id : nat) :
  tagged_on_creation cs = true ->
  cs = pre ++ CreateSnapshot vid d id :: post ->
  exists post', post = CreateTags id [(DELETE_TAG, "true")] :: post'.
Proof.
  intros Hcs ->.
  assert (H : forall n l, (List.length l <= n)%nat ->
                tagged_on_creation (l ++ CreateSnapshot vid d id :: post) = true ->
                exists post', post = CreateTags id [(DELETE_TAG, "true")] :: post').
  { induction n as [|n IH]; intros l Hlen Hl.
    - destruct l; [| simpl in Hlen; lia]. simpl in Hl.
      destruct post as [|[vid' d' id'|id' tags|id'] post]; try discriminate Hl.
      apply andb_true_iff in Hl as [Hhead _]. apply andb_true_iff in Hhead as [Hid Htags].
      apply Nat.eqb_eq in Hid. apply bool_decide_eq_true in Htags. subst.
      eexists. reflexivity.
    - destruct l as [|c l]; [apply (IH []); [simpl; lia | exact Hl] |].
      destruct c as [vid' d' id'|id' tags|id']; simpl in *.
      + destruct l as [|[vid'' d'' id''|id'' tags|id''] l]; try discriminate Hl.
        simpl in *. apply andb_true_iff in Hl as [_ Hl]. apply (IH l); [lia | exact Hl].
      + apply (IH l); [lia | exact Hl].
      + apply (IH l); [lia | exact Hl]. }
  exact (H (List.length pre) pre (le_n _) Hcs).
Qed.

Section Issues.

Variable Q : list ApiCall -> Prop.
Hypothesis Q_nil : Q [].
Hypothesis Q_app : forall a b, Q a -> Q b -> Q (a ++ b).
Hypothesis Q_delete : forall id, Q [DeleteSnapshot id].
Hypothesis Q_take :
  forall vid d id, Q [CreateSnapshot vid d id; CreateTags id [(DELETE_TAG, "true")]].

Lemma issues_ret {A : Type} (a : A) : issues Q (ret a).
Proof.
  intros w r w' H. injection H as <- <-. exists []. rewrite app_nil_r.
  split; [reflexivity | exact Q_nil].
Qed.

Lemma issues_lift {A : Type} (r : Result A) : issues Q (lift r).
Proof.
  intros w r' w' H. injection H as <- <-. exists []. rewrite app_nil_r.
  split; [reflexivity | exact Q_nil].
Qed.

Lemma issues_bind {A B : Type} (m : M A) (k : A -> M B) :
  issues Q m -> (forall a, issues Q (k a)) -> issues Q (bind m k).
Proof.
  intros Hm Hk w r w' H. unfold bind in H. destruct (m w) as [[a|e] w1] eqn:E.
  - destruct (Hm _ _ _ E) as (cs & Hcs & HQ).
    destruct (Hk a _ _ _ H) as (cs' & Hcs' & HQ').
    exists (cs ++ cs'). split; [rewrite Hcs', Hcs, app_assoc; reflexivity |].
    apply Q_app; assumption.
  - injection H as <- <-. exact (Hm _ _ _ E).
Qed.

Lemma issues_for_each {A : Type} (body : A -> M unit) (l : list A) :
  (forall x, issues Q (body x)) -> issues Q (for_each l body).
Proof.
  intros H. induction l as [|x l IH]; simpl.
  - apply issues_ret.
  - apply issues_bind; [apply H | intros _; exact IH].
Qed.

Lemma issues_snapshot_body (r : Z) (snapshot : Snapshot) :
  issues Q (snapshot_body r snapshot).
Proof.
  intros w res w' H. destruct (is_auto_delete snapshot) eqn:Hauto.
  - destruct (Z_le_gt_dec (Z.abs r) Datetime.MAX_DELTA_DAYS) as [Hr|Hr].
    + rewrite snapshot_body_examined in H by assumption.
      destruct (w_clock w (w_tick w) - snap_start_time snapshot >? r * Datetime.US_PER_DAY);
        injection H as <- <-; simpl.
      * eexists. split; [reflexivity | apply Q_delete].
      * exists []. rewrite app_nil_r. split; [reflexivity | exact Q_nil].
    + rewrite snapshot_body_overflow in H by (assumption || lia).
      injection H as <- <-. exists []. rewrite app_nil_r.
      split; [reflexivity | exact Q_nil].
  - rewrite snapshot_body_skip in H by assumption. injection H as <- <-.
    exists []. rewrite app_nil_r. split; [reflexivity | exact Q_nil].
Qed.

Lemma issues_purge_snapshots (volume : Volume) (r : Z) :
  issues Q (purge_snapshots volume r).
Proof.
  intros w res w' H. rewrite purge_snapshots_unfold in H.
  destruct (Z.of_nat (List.length (tagged_snapshots volume w)) <=? MIN_RETENTION_COUNT).
  - injection H as <- <-. exists []. rewrite app_nil_r.
    split; [reflexivity | exact Q_nil].
  - exact (issues_for_each _ _ (issues_snapshot_body r) _ _ _ H).
Qed.

Lemma issues_take_snapshot (instance_name : PyVal) (volume : Volume) :
  issues Q (take_snapshot instance_name volume).
Proof.
  intros w res w' H.
  destruct (take_snapshot_frame instance_name volume w) as (Hc & _).
  rewrite H in Hc. simpl in Hc. eexists. split; [exact Hc | apply Q_take].
Qed.

Lemma issues_volume_body (instance_name : PyVal) (retention_days : Z) (volume : Volume) :
  issues Q (volume_body instance_name retention_days volume).
Proof.
  unfold volume_body.
  destruct (is_false_value (volume_make_snapshot (tags_dict (vol_tags volume))));
    [apply issues_ret |].
  apply issues_bind; [apply issues_take_snapshot |]. intros _.
  apply issues_bind; [apply issues_lift |]. intros r. apply issues_purge_snapshots.
Qed.

Lemma issues_instance_body (instance : Instance) : issues Q (instance_body instance).
Proof.
  unfold instance_body.
  destruct (is_false_value (instance_make_snapshot (tags_dict (inst_tags instance))));
    [apply issues_ret |].
  apply issues_bind; [apply issues_lift |]. intros r.
  apply issues_for_each. intros v. apply issues_volume_body.
Qed.

Lemma issues_lambda_handler (event context : PyVal) :
  issues Q (lambda_handler event context).
Proof.
  unfold lambda_handler. apply issues_bind.
  - intros w r w' H. injection H as <- <-. exists []. rewrite app_nil_r.
    split; [reflexivity | exact Q_nil].
  - intros instances. apply issues_bind; [| intros _; apply issues_ret].
    apply issues_for_each. apply issues_instance_body.
Qed.

End Issues.

(** X4. In every run, completed or not, each snapshot creation is followed
    at once by the call that tags the new snapshot with ['AutoDelete'] set to
    ['true']: no snapshot is left untagged, whatever raises later. *)
Theorem creation_is_followed_by_tagging (event context : PyVal) (w : World)
    (pre post : list ApiCall) (vid d : string) (id : nat) :
  calls_since w (snd (lambda_handler event context w))
    = pre ++ CreateSnapshot vid d id :: post ->
  exists post', post = CreateTags id [(DELETE_TAG, "true")] :: post'.
Proof.
  intros Hcalls.
  destruct (issues_lambda_handler (fun cs => tagged_on_creation cs = true)
              eq_refl tagged_on_creation_app (fun _ => eq_refl)
              (fun _ _ id' => eq_trans
                 (f_equal (fun b => b && true && true) (Nat.eqb_refl id')) eq_refl)
              event context w _ _ (surjective_pairing _))
    as (cs & Hcs & Htagged).
  rewrite (calls_since_app _ _ _ Hcs) in Hcalls.
  exact (tagged_on_creation_next _ _ _ _ _ _ Htagged Hcalls).
Qed.

(** ** Snapshots that a run leaves alone *)

Lemma preserves_ret {A : Type} (Inv : World -> Prop) (a : A) : preserves Inv (ret a).
Proof. intros w r w' HI H. injection H as <- <-. exact HI. Qed.

Lemma preserves_lift {A : Type} (Inv : World -> Prop) (r : Result A) :
  preserves Inv (lift r).
Proof. intros w r' w' HI H. injection H as <- <-. exact HI. Qed.

Lemma preserves_bind {A B : Type} (Inv : World -> Prop) (m : M A) (k : A -> M B) :
  preserves Inv m -> (forall a, preserves Inv (k a)) -> preserves Inv (bind m k).
Proof.
  intros Hm Hk w r w' HI H. unfold bind in H. destruct (m w) as [[a|e] w1] eqn:E.
  - exact (Hk a _ _ _ (Hm _ _ _ HI E) H).
  - injection H as <- <-. exact (Hm _ _ _ HI E).
Qed.

Lemma preserves_for_each {A : Type} (Inv : World -> Prop) (body : A -> M unit)
    (l : list A) :
  (forall x, In x l -> preserves Inv (body x)) -> preserves Inv (for_each l body).
Proof.
  induction l as [|x l IH]; intros H; simpl.
  - apply preserves_ret.
  - apply preserves_bind; [apply H; left; reflexivity |].
    intros _. apply IH. intros y Hy. apply H. right. exact Hy.
Qed.

Lemma deletes_app (a b : list ApiCall) (id : nat) :
  deletes (a ++ b) id = deletes a id || deletes b id.
Proof. unfold deletes. apply existsb_app. Qed.

Lemma same_id_same_snapshot (w : World) (x s : Snapshot) :
  wf_world w = true -> In x (w_snapshots w) -> In s (w_snapshots w) ->
  snap_id x = snap_id s -> x = s.
Proof.
  intros Hwf Hx Hs Hid. apply wf_world_spec in Hwf as [Hnd _].
  apply list_elem_of_In, list_elem_of_lookup_1 in Hx as [i Hi].
  apply list_elem_of_In, list_elem_of_lookup_1 in Hs as [j Hj].
  exact (proj2 (lookup_unique_id _ Hnd _ _ _ _ Hi Hj Hid)).
Qed.

Lemma kept_take_snapshot (s : Snapshot) (n : nat) (instance_name : PyVal)
    (volume : Volume) :
  preserves (kept s n) (take_snapshot instance_name volume).
Proof.
  intros w r w' (Hwf & Hin & Hn & Hd) H.
  pose proof (take_snapshot_wf instance_name volume w Hwf) as Hwf'.
  pose proof (take_snapshot_store instance_name volume w Hwf) as Hstore.
  destruct (take_snapshot_frame instance_name volume w) as (Hc & _).
  rewrite H in Hwf', Hstore, Hc. simpl in Hwf', Hstore, Hc.
  split; [exact Hwf' |]. split; [rewrite Hstore; apply in_app_iff; left; exact Hin |].
  rewrite Hc. split; [rewrite length_app; lia |].
  rewrite drop_app_le by exact Hn. rewrite deletes_app, Hd. reflexivity.
Qed.

Lemma kept_snapshot_body (s : Snapshot) (n : nat) (r : Z) (x : Snapshot) :
  (snap_id x = snap_id s -> is_auto_delete x = false) ->
  preserves (kept s n) (snapshot_body r x).
Proof.
  intros Hx w res w' Hk H. destruct (is_auto_delete x) eqn:Hauto.
  - assert (Hne : snap_id x <> snap_id s) by (intros Heq; specialize (Hx Heq); discriminate).
    destruct (Z_le_gt_dec (Z.abs r) Datetime.MAX_DELTA_DAYS) as [Hr|Hr].
    + rewrite snapshot_body_examined in H by assumption.
      destruct (w_clock w (w_tick w) - snap_start_time x >? r * Datetime.US_PER_DAY);
        injection H as <- <-; [| exact Hk].
      destruct Hk as (Hwf & Hin & Hn & Hd).
      split; [exact (keeps_wf_delete x (advance w) _ _ Hwf eq_refl) |]. simpl.
      split.
      * apply filter_In. split; [exact Hin |].
        apply negb_true_iff, Nat.eqb_neq. congruence.
      * split; [rewrite length_app; lia |].
        rewrite drop_app_le by exact Hn. rewrite deletes_app, Hd. simpl.
        rewrite orb_false_r. apply Nat.eqb_neq. exact Hne.
    + rewrite snapshot_body_overflow in H by (assumption || lia).
      injection H as <- <-. exact Hk.
  - rewrite snapshot_body_skip in H by assumption. injection H as <- <-. exact Hk.
Qed.

Lemma kept_purge_snapshots (s : Snapshot) (n : nat) (volume : Volume) (r : Z) :
  is_auto_delete s = false \/ snap_volume_id s <> vol_id volume ->
  preserves (kept s n) (purge_snapshots volume r).
Proof.
  intros Hsafe w res w' Hk H. rewrite purge_snapshots_unfold in H.
  destruct (Z.of_nat (List.length (tagged_snapshots volume w)) <=? MIN_RETENTION_COUNT).
  - injection H as <- <-. exact Hk.
  - refine (preserves_for_each _ _ _ _ _ _ _ Hk H).
    intros x Hx. apply kept_snapshot_body. intros Hid.
    destruct Hk as (Hwf & Hin & _). apply filter_In in Hx as [Hx Hlisted].
    rewrite (same_id_same_snapshot _ _ _ Hwf Hx Hin Hid) in *.
    destruct Hsafe as [Hauto|Hvol]; [exact Hauto |].
    apply andb_true_iff in Hlisted as [Hvid _]. apply String.eqb_eq in Hvid.
    contradiction.
Qed.

Lemma kept_volume_body (s : Snapshot) (n : nat) (instance_name : PyVal)
    (retention_days : Z) (volume : Volume) :
  is_auto_delete s = false \/ snap_volume_id s <> vol_id volume \/
  is_false_value (volume_make_snapshot (tags_dict (vol_tags volume))) = true ->
  preserves (kept s n) (volume_body instance_name retention_days volume).
Proof.
  intros Hsafe. unfold volume_body.
  destruct (is_false_value (volume_make_snapshot (tags_dict (vol_tags volume))));
    [apply preserves_ret |].
  apply preserves_bind; [apply kept_take_snapshot |]. intros _.
  apply preserves_bind; [apply preserves_lift |]. intros r.
  apply kept_purge_snapshots.
  destruct Hsafe as [H|[H|H]]; [left; exact H | right; exact H | discriminate H].
Qed.

Lemma kept_instance_body (s : Snapshot) (n : nat) (w0 : World) (instance : Instance) :
  In instance (selected_instances w0) ->
  is_auto_delete s = false \/ ~ processes w0 (snap_volume_id s) ->
  preserves (kept s n) (instance_body instance).
Proof.
  intros Hsel Hsafe. unfold instance_body.
  destruct (is_false_value (instance_make_snapshot (tags_dict (inst_tags instance))))
    eqn:Hin; [apply preserves_ret |].
  apply preserves_bind; [apply preserves_lift |]. intros r.
  apply preserves_for_each. intros v Hv. apply kept_volume_body.
  destruct Hsafe as [H|H]; [left; exact H | right].
  destruct (string_dec (snap_volume_id s) (vol_id v)) as [Heq|Hne]; [| left; exact Hne].
  right.
  destruct (is_false_value (volume_make_snapshot (tags_dict (vol_tags v)))) eqn:Hvin;
    [reflexivity |].
  exfalso. apply H. exists instance, v. repeat split; try assumption. congruence.
Qed.

(** A snapshot of the store is neither deleted nor altered by a run, whether
    the run completes or raises, when its tag value is not ['true'] or when its
    volume is not one the run processes. *)
Lemma run_keeps_snapshot (event context : PyVal) (w : World) (s : Snapshot) :
  wf_world w = true ->
  In s (w_snapshots w) ->
  is_auto_delete s = false \/ ~ processes w (snap_volume_id s) ->
  let w' := snd (lambda_handler event context w) in
  In s (w_snapshots w') /\ ~ In (DeleteSnapshot (snap_id s)) (calls_since w w').
Proof.
  intros Hwf Hin Hsafe w'.
  assert (Hk : kept s (List.length (w_calls w)) w').
  { subst w'. rewrite lambda_handler_unfold.
    destruct (for_each (selected_instances w) instance_body w) as [res w1] eqn:Hrun.
    assert (Hk1 : kept s (List.length (w_calls w)) w1).
    { refine (preserves_for_each _ _ _ _ _ _ _ _ Hrun).
      - intros i Hi. exact (kept_instance_body _ _ w i Hi Hsafe).
      - split; [exact Hwf |]. split; [exact Hin |]. split; [lia |].
        rewrite drop_all. reflexivity. }
    destruct res; exact Hk1. }
  destruct Hk as (_ & Hin' & _ & Hd). split; [exact Hin' |].
  unfold calls_since. rewrite <- deletes_In, Hd. discriminate.
Qed.

(** X5. A run never deletes a snapshot whose [AutoDelete] value is not
    ['true'] up to case, or that has no such tag: whether the run completes or
    raises, the snapshot is still in the store, unchanged, and no deletion call
    names it. *)
Theorem run_never_deletes_unmarked_snapshot (event context : PyVal) (w : World)
    (s : Snapshot) :
  wf_world w = true ->
  In s (w_snapshots w) ->
  Py.lower (Py.str (dict_get (tags_dict (snap_tags s)) DELETE_TAG PNone)) <> "true" ->
  let w' := snd (lambda_handler event context w) in
  In s (w_snapshots w') /\ ~ In (DeleteSnapshot (snap_id s)) (calls_since w w').
Proof.
  intros Hwf Hin Hvalue. apply run_keeps_snapshot; [exact Hwf | exact Hin |].
  left. unfold is_auto_delete, auto_delete_value.
  apply String.eqb_neq. exact Hvalue.
Qed.

(** X6. A run never deletes a snapshot of a volume that it does not process,
    that is, a volume that is not a volume, not opted out, of a selected
    instance that is not opted out: the snapshot stays in the store, unchanged,
    even when it is tagged ['true'] and long expired. *)
Theorem run_never_deletes_snapshot_of_other_volume (event context : PyVal) (w : World)
    (s : Snapshot) :
  wf_world w = true ->
  In s (w_snapshots w) ->
  ~ processes w (snap_volume_id s) ->
  let w' := snd (lambda_handler event context w) in
  In s (w_snapshots w') /\ ~ In (DeleteSnapshot (snap_id s)) (calls_since w w').
Proof.
  intros Hwf Hin Hother. apply run_keeps_snapshot; [exact Hwf | exact Hin |].
  right. exact Hother.
Qed.

(** ** Descriptions *)

(** X7. When the clock is not read on a whole second, the snapshot the run
    creates for a volume is described by the instance name, the volume
    identifier and the UTC time [YYYY-MM-DDTHH:MM:SS], joined by ['.']; the
    time part has no fractional seconds. *)
Theorem description_keeps_whole_seconds (instance_name : PyVal) (retention_days : Z)
    (volume : Volume) (w w' : World) (res : Result unit) :
  is_false_value (volume_make_snapshot (tags_dict (vol_tags volume))) = false ->
  w_clock w (w_tick w) mod Datetime.US_PER_SECOND <> 0 ->
  volume_body instance_name retention_days volume w = (res, w') ->
  let stamp :=
    Datetime.isoformat_seconds (Datetime.utcfromtimestamp (w_clock w (w_tick w))) in
  In (CreateSnapshot (vol_id volume)
        (Py.str instance_name +:+ "." +:+ vol_id volume +:+ "." +:+ stamp) (w_next_id w))
     (calls_since w w') /\
  contains "." stamp = false.
Proof.
  intros Hin Hus Hrun stamp. split; [| apply isoformat_seconds_no_dot].
  destruct (volume_body_creates _ _ _ _ _ _ Hin Hrun) as [cs Hcs].
  rewrite (calls_since_app _ _ _ Hcs). left. f_equal.
  unfold new_snapshot_of. simpl snap_description.
  apply description_with_timestamp.
  rewrite microsecond_utcfromtimestamp. exact Hus.
Qed.

Lemma snapshot_description_shape (instance_name : PyVal) (volume : Volume)
    (dt : Datetime.datetime) :
  exists stamp,
    snapshot_description instance_name volume dt
      = Py.str instance_name +:+ "." +:+ vol_id volume +:+ "." +:+ stamp /\
    contains "." stamp = false.
Proof.
  destruct (Z.eq_dec (Datetime.microsecond dt) 0) as [H0|Hne].
  - exists "". split; [| reflexivity].
    rewrite (description_on_whole_second _ _ _ H0). reflexivity.
  - exists (Datetime.isoformat_seconds dt).
    split; [apply description_with_timestamp, Hne | apply isoformat_seconds_no_dot].
Qed.

Lemma emits_described_volume_body (instance_name : PyVal) (retention_days : Z)
    (volume : Volume) :
  emits (described_call (Py.str instance_name) volume)
        (volume_body instance_name retention_days volume).
Proof.
  unfold volume_body.
  destruct (is_false_value (volume_make_snapshot (tags_dict (vol_tags volume))));
    [apply emits_ret |].
  apply emits_bind.
  - unfold take_snapshot, utcnow.
    apply emits_bind; [apply emits_bind; [apply emits_clock_read | intros; apply emits_ret] |].
    intros dt. apply emits_bind.
    + apply emits_create_snapshot. intros id. split; [reflexivity |].
      apply snapshot_description_shape.
    + intros new. apply emits_bind; [apply emits_create_tags; exact I |].
      intros _. apply emits_ret.
  - intros _. apply emits_bind; [apply emits_lift |]. intros r.
    apply emits_purge_snapshots. intros id. exact I.
Qed.

(** X10. Every snapshot that the processing of an instance creates is for one
    of the instance's volumes, and its description is the instance's display
    name, the volume identifier and a part without ['.'], joined by ['.']; the
    display name is the value of the instance's [Name] tag when it has one and
    the instance identifier otherwise. *)
Theorem descriptions_use_display_name (instance : Instance) (w : World)
    (vid d : string) (id : nat) :
  In (CreateSnapshot vid d id) (calls_since w (snd (instance_body instance w))) ->
  let name :=
    match tags_dict (inst_tags instance) !! "Name" with
    | Some v => v
    | None => inst_id instance
    end in
  (exists volume, In volume (inst_volumes instance) /\ vol_id volume = vid) /\
  exists stamp, d = name +:+ "." +:+ vid +:+ "." +:+ stamp /\ contains "." stamp = false.
Proof.
  intros Hcall name.
  assert (Hname : Py.str (display_name instance) = name).
  { unfold display_name, dict_get, name.
    destruct (tags_dict (inst_tags instance) !! "Name"); reflexivity. }
  assert (Hemits :
    emits (fun c => match c with
                    | CreateSnapshot vid' d' _ =>
                        (exists volume, In volume (inst_volumes instance) /\
                                        vol_id volume = vid') /\
                        exists stamp, d' = name +:+ "." +:+ vid' +:+ "." +:+ stamp /\
                                      contains "." stamp = false
                    | _ => True
                    end)
          (instance_body instance)).
  { unfold instance_body.
    destruct (is_false_value (instance_make_snapshot (tags_dict (inst_tags instance))));
      [apply emits_ret |].
    apply emits_bind; [apply emits_lift |]. intros r.
    apply emits_for_each. intros v Hv.
    eapply emits_impl; [| apply emits_described_volume_body].
    fold (display_name instance). rewrite Hname.
    intros [vid' d' id'| |]; simpl; [| trivial | trivial].
    intros [-> Hd]. split; [exists v; split; [exact Hv | reflexivity] | exact Hd]. }
  destruct (Hemits w _ _ (surjective_pairing _)) as (_ & _ & _ & cs & Hcs & HP).
  rewrite (calls_since_app _ _ _ Hcs) in Hcall.
  rewrite Forall_forall in HP. apply list_elem_of_In in Hcall.
  exact (HP _ Hcall).
Qed.

(** ** Runs that raise, runs that complete *)

Lemma purge_loop_overflow (r : Z) (l : list Snapshot) :
  Datetime.MAX_DELTA_DAYS < Z.abs r ->
  (exists x, In x l /\ is_auto_delete x = true) ->
  forall w, for_each l (snapshot_body r) w = (Raised OverflowError, w).
Proof.
  intros Hr. induction l as [|y l IH]; intros [x [Hx Hauto]] w; [destruct Hx |].
  simpl. destruct (is_auto_delete y) eqn:Hy.
  - apply bind_raised. apply snapshot_body_overflow; assumption.
  - rewrite (bind_ok _ _ _ _ _ (snapshot_body_skip r y w Hy)). apply IH.
    destruct Hx as [<-|Hx]; [congruence |]. exists x. split; assumption.
Qed.

(** X8. A retention beyond what [timedelta] accepts, more than 999999999
    days in absolute value, makes the processing of a volume raise
    [OverflowError] as soon as the volume has a prior snapshot carrying the
    deletion tag: the new snapshot has been taken and tagged, and nothing is
    deleted.  Without such a prior snapshot the purge is skipped and the
    processing completes. *)
Theorem huge_retention_raises (instance_name : PyVal) (retention_days r : Z)
    (volume : Volume) (w : World) :
  wf_world w = true ->
  is_false_value (volume_make_snapshot (tags_dict (vol_tags volume))) = false ->
  volume_retention_days (tags_dict (vol_tags volume)) retention_days = Ok r ->
  Datetime.MAX_DELTA_DAYS < Z.abs r ->
  volume_body instance_name retention_days volume w =
    (match tagged_snapshots volume w with
     | [] => Ok tt
     | _ :: _ => Raised OverflowError
     end,
     snd (take_snapshot instance_name volume w)).
Proof.
  intros Hwf Hin Hr Habs.
  rewrite (volume_body_processed _ _ _ _ _ Hin Hr), purge_snapshots_unfold.
  rewrite (tagged_snapshots_after_take _ _ _ Hwf).
  destruct (tagged_snapshots volume w) as [|x l]; [reflexivity |].
  assert (Hlen : (Z.of_nat (List.length ((x :: l) ++ [new_snapshot_of instance_name volume w]))
                  <=? MIN_RETENTION_COUNT) = false).
  { apply Z.leb_gt. rewrite length_app. simpl. unfold MIN_RETENTION_COUNT. lia. }
  rewrite Hlen. apply purge_loop_overflow; [exact Habs |].
  exists (new_snapshot_of instance_name volume w).
  split; [apply in_app_iff; right; left; reflexivity | apply new_snapshot_is_auto_delete].
Qed.

Lemma for_each_total {A : Type} (body : A -> M unit) (l : list A) :
  (forall x, In x l -> forall w, fst (body x w) = Ok tt) ->
  forall w, fst (for_each l body w) = Ok tt.
Proof.
  induction l as [|x l IH]; intros H w; [reflexivity |].
  simpl. unfold bind. pose proof (H x (or_introl eq_refl) w) as Hx.
  destruct (body x w) as [[[]|e] w1]; [| discriminate Hx].
  apply IH. intros y Hy. apply H. right. exact Hy.
Qed.

Lemma volume_body_total (instance_name : PyVal) (retention_days : Z) (volume : Volume) :
  volume_retention_ok retention_days volume = true ->
  forall w, fst (volume_body instance_name retention_days volume w) = Ok tt.
Proof.
  unfold volume_retention_ok. intros Hok w.
  destruct (is_false_value (volume_make_snapshot (tags_dict (vol_tags volume)))) eqn:Hin.
  - rewrite volume_body_skipped by exact Hin. reflexivity.
  - simpl in Hok.
    destruct (volume_retention_days (tags_dict (vol_tags volume)) retention_days)
      as [r|e] eqn:Hr; [| discriminate Hok].
    apply Z.leb_le in Hok.
    rewrite (volume_body_processed _ _ _ _ _ Hin Hr), purge_snapshots_unfold.
    destruct (Z.of_nat _ <=? MIN_RETENTION_COUNT); [reflexivity |].
    apply purge_loop_total. exact Hok.
Qed.

Lemma instance_body_total (instance : Instance) :
  instance_retention_ok instance = true ->
  forall w, fst (instance_body instance w) = Ok tt.
Proof.
  unfold instance_retention_ok, instance_body. intros Hok w.
  destruct (is_false_value (instance_make_snapshot (tags_dict (inst_tags instance))));
    [reflexivity |].
  simpl in Hok.
  destruct (instance_retention_days (tags_dict (inst_tags instance))) as [r|e];
    [| discriminate Hok].
  unfold bind, lift. apply for_each_total. intros v Hv.
  apply volume_body_total. rewrite forallb_forall in Hok. apply Hok.
  exact Hv.
Qed.

(** With retentions that the handler reads as integers within the range of
    [timedelta], a run completes. *)
Lemma handler_completes (event context : PyVal) (w : World) :
  retentions_ok w = true ->
  fst (lambda_handler event context w) = Ok true.
Proof.
  intros Hok. rewrite lambda_handler_unfold.
  assert (Hloop : fst (for_each (selected_instances w) instance_body w) = Ok tt).
  { apply for_each_total. intros i Hi. apply instance_body_total.
    unfold retentions_ok in Hok. rewrite forallb_forall in Hok. apply Hok. exact Hi. }
  destruct (for_each (selected_instances w) instance_body w) as [[[]|e] w1];
    [reflexivity | discriminate Hloop].
Qed.

(** ** Opted-out volumes, and the calls made for a volume *)

(** X11. A volume that is opted out is skipped without any effect on the
    processing of the other volumes of its instance: the instance is processed
    exactly as if the volume were not attached. *)
Theorem opted_out_volume_is_invisible (id state : string) (tags : option (list Tag))
    (before after : list Volume) (volume : Volume) (w : World) :
  is_false_value (volume_make_snapshot (tags_dict (vol_tags volume))) = true ->
  instance_body (mk_instance id state tags (before ++ volume :: after)) w
  = instance_body (mk_instance id state tags (before ++ after)) w.
Proof.
  intros Hout. unfold instance_body. simpl.
  destruct (is_false_value (instance_make_snapshot (tags_dict tags))); [reflexivity |].
  unfold bind, lift.
  destruct (instance_retention_days (tags_dict tags)) as [r|e]; [| reflexivity].
  rewrite !for_each_app. unfold bind.
  destruct (for_each before _ w) as [[[]|e] w1]; [| reflexivity].
  simpl. unfold bind. rewrite volume_body_skipped by exact Hout. reflexivity.
Qed.

(** The calls of the processing of a volume that is not opted out, whatever
    its outcome: one creation, the tagging of the new snapshot, then deletions
    only. *)
Lemma volume_body_calls (instance_name : PyVal) (retention_days : Z)
    (volume : Volume) (w w' : World) (res : Result unit) :
  is_false_value (volume_make_snapshot (tags_dict (vol_tags volume))) = false ->
  volume_body instance_name retention_days volume w = (res, w') ->
  exists cs,
    w_calls w' =
      w_calls w ++
        [CreateSnapshot (vol_id volume)
           (snap_description (new_snapshot_of instance_name volume w)) (w_next_id w);
         CreateTags (w_next_id w) [(DELETE_TAG, "true")]] ++ cs /\
    Forall (fun c => exists id, c = DeleteSnapshot id) cs.
Proof.
  intros Hin H. unfold volume_body in H. rewrite Hin in H. unfold bind at 1 in H.
  pose proof (take_snapshot_result instance_name volume w) as Hfst.
  destruct (take_snapshot_frame instance_name volume w) as (Hc1 & _).
  destruct (take_snapshot instance_name volume w) as [res1 w1]. simpl in Hfst, Hc1.
  subst res1.
  assert (Hrest : emits (fun c => exists id, c = DeleteSnapshot id)
                    (volume_retention_days <-
                       lift (volume_retention_days (tags_dict (vol_tags volume))
                               retention_days) ;;
                     purge_snapshots volume volume_retention_days)).
  { apply emits_bind; [apply emits_lift |]. intros r.
    apply emits_purge_snapshots. intros id. exists id. reflexivity. }
  destruct (Hrest _ _ _ H) as (_ & _ & _ & cs & Hcs & Hdel).
  exists cs. split; [| exact Hdel]. rewrite Hcs, Hc1, <- app_assoc. reflexivity.
Qed.

(** * The handler against the specification's vocabulary *)

(** ** The handler's readings are the specification's *)

Lemma tag_value_dict (key : string) (tags : option (list Tag)) :
  tags_dict tags !! key = tag_value key tags.
Proof. destruct tags as [ts|]; [apply tags_dict_lookup | apply lookup_empty]. Qed.

Lemma carries_tag_key (key : string) (tags : option (list Tag)) :
  has_tag_key key tags = carries_tag key tags.
Proof.
  unfold carries_tag. rewrite <- tag_value_dict.
  destruct (has_tag_key key tags) eqn:H.
  - apply has_tag_key_lookup in H as [v ->]. reflexivity.
  - destruct (tags_dict tags !! key) as [v|] eqn:Hv; [| reflexivity].
    assert (Hkey : has_tag_key key tags = true)
      by (apply has_tag_key_lookup; exists v; exact Hv).
    congruence.
Qed.

Lemma snapshots_with_tag_listing (volume : Volume) (w : World) :
  tagged_snapshots volume w = snapshots_with_tag volume w.
Proof.
  unfold tagged_snapshots, snapshots_with_tag. apply List.filter_ext.
  intros s. rewrite carries_tag_key. reflexivity.
Qed.

Lemma instances_to_visit_selected (w : World) :
  selected_instances w = instances_to_visit w.
Proof.
  unfold selected_instances, instances_to_visit. apply List.filter_ext.
  intros i. rewrite carries_tag_key. reflexivity.
Qed.

Lemma same_letter_table :
  forallb
    (fun x =>
       forallb
         (fun y =>
            Bool.eqb (same_letter (ascii_of_nat x) (ascii_of_nat y))
                     (Ascii.eqb (Py.lower_ascii (ascii_of_nat x))
                                (Py.lower_ascii (ascii_of_nat y))))
         (seq 0 256))
    (seq 0 256) = true.
Proof. vm_compute. reflexivity. Qed.

Lemma same_letter_lower (a b : ascii) :
  same_letter a b = Ascii.eqb (Py.lower_ascii a) (Py.lower_ascii b).
Proof.
  pose proof same_letter_table as H. rewrite forallb_forall in H.
  assert (Hin : forall c, In (nat_of_ascii c) (seq 0 256)).
  { intros c. apply in_seq. pose proof (nat_ascii_bounded c). lia. }
  specialize (H _ (Hin a)). rewrite forallb_forall in H. specialize (H _ (Hin b)).
  rewrite !ascii_nat_embedding in H. apply Bool.eqb_prop. exact H.
Qed.

Lemma equal_ignoring_case_lower (a b : string) :
  equal_ignoring_case a b = String.eqb (Py.lower a) (Py.lower b).
Proof.
  revert b. induction a as [|x a IH]; intros [|y b]; try reflexivity.
  simpl. rewrite same_letter_lower, IH.
  destruct (Ascii.eqb (Py.lower_ascii x) (Py.lower_ascii y)); reflexivity.
Qed.

Lemma lower_eqb_literal (v t : string) :
  Py.lower t = t -> String.eqb (Py.lower v) t = equal_ignoring_case v t.
Proof. intros Ht. rewrite equal_ignoring_case_lower, Ht. reflexivity. Qed.

Lemma is_false_value_opts_out (v : string) : is_false_value (Py.lower v) = opts_out v.
Proof.
  unfold is_false_value, opts_out. cbn [existsb].
  rewrite !lower_eqb_literal by reflexivity. rewrite orb_false_r, orb_assoc.
  reflexivity.
Qed.

Lemma volume_opted_out_reading (volume : Volume) :
  is_false_value (volume_make_snapshot (tags_dict (vol_tags volume)))
  = volume_opted_out volume.
Proof.
  unfold volume_make_snapshot, dict_get, volume_opted_out. rewrite tag_value_dict.
  destruct (tag_value SNAPSHOT_TAG (vol_tags volume)) as [v|]; [| reflexivity].
  apply is_false_value_opts_out.
Qed.

Lemma instance_opted_in_reading (instance : Instance) :
  is_false_value (instance_make_snapshot (tags_dict (inst_tags instance)))
  = negb (instance_opted_in instance).
Proof.
  unfold instance_make_snapshot, dict_get, instance_opted_in. rewrite tag_value_dict.
  destruct (tag_value SNAPSHOT_TAG (inst_tags instance)) as [v|]; [| reflexivity].
  rewrite negb_involutive. apply is_false_value_opts_out.
Qed.

Lemma marked_true_reading (s : Snapshot) : is_auto_delete s = marked_true s.
Proof.
  unfold is_auto_delete, auto_delete_value, dict_get, marked_true.
  rewrite tag_value_dict.
  destruct (tag_value DELETE_TAG (snap_tags s)) as [v|]; [| reflexivity].
  apply lower_eqb_literal. reflexivity.
Qed.

Lemma retention_of_volume_reading (volume : Volume) (inherited : Z) :
  volume_retention_days (tags_dict (vol_tags volume)) inherited
  = retention_of (vol_tags volume) inherited.
Proof.
  unfold volume_retention_days, dict_get, retention_of. rewrite tag_value_dict.
  destruct (tag_value RETENTION_TAG (vol_tags volume)); reflexivity.
Qed.

Lemma retention_of_instance_reading (instance : Instance) :
  instance_retention_days (tags_dict (inst_tags instance))
  = retention_of (inst_tags instance) RETENTION_DAYS_DEFAULT.
Proof.
  unfold instance_retention_days, dict_get, retention_of. rewrite tag_value_dict.
  destruct (tag_value RETENTION_TAG (inst_tags instance)); reflexivity.
Qed.

Lemma forallb_agree {A : Type} (f g : A -> bool) (l : list A) :
  (forall a, f a = g a) -> forallb f l = forallb g l.
Proof.
  intros H. induction l as [|a l IH]; [reflexivity |]. simpl. rewrite H, IH. reflexivity.
Qed.

(** ** Which snapshots a run deletes *)

(** C1 (amended). For a processed volume, every snapshot of the volume that
    carries the deletion tag, the snapshot just taken being one of them, is
    deleted if and only if its tag value is ['true'] up to case, its age when
    it is examined strictly exceeds the volume's retention period, and the
    count of these snapshots, the new one included, exceeds 1; when the volume
    had no such snapshot before the run, so that the count is 1, nothing is
    deleted. *)
Theorem snapshot_deleted_iff (instance_name : PyVal) (retention_days r : Z)
    (volume : Volume) (w w' : World) :
  wf_world w = true ->
  volume_opted_out volume = false ->
  retention_of (vol_tags volume) retention_days = Ok r ->
  volume_body instance_name retention_days volume w = (Ok tt, w') ->
  let listing :=
    snapshots_with_tag volume w ++ [new_snapshot_of instance_name volume w] in
  (forall i s, listing !! i = Some s ->
     (In (DeleteSnapshot (snap_id s)) (calls_since w w') <->
        marked_true s = true /\
        purge_reading w listing i - snap_start_time s > r * Datetime.US_PER_DAY /\
        (1 < List.length listing)%nat)) /\
  (snapshots_with_tag volume w = [] ->
   forall id, ~ In (DeleteSnapshot id) (calls_since w w')).
Proof.
  intros Hwf Hin Hr Hrun listing.
  rewrite <- volume_opted_out_reading in Hin.
  rewrite <- retention_of_volume_reading in Hr.
  destruct (volume_body_completed _ _ _ _ _ _ Hwf Hin Hr Hrun)
    as [cs [Hcalls [_ [_ [Hfew [_ Hiff]]]]]].
  set (w1 := snd (take_snapshot instance_name volume w)) in *.
  assert (Hl : tagged_snapshots volume w1 = listing).
  { unfold w1, listing. rewrite (tagged_snapshots_after_take _ _ _ Hwf).
    rewrite snapshots_with_tag_listing. reflexivity. }
  rewrite Hl in Hfew, Hiff.
  destruct (take_snapshot_frame instance_name volume w) as (Hc1 & Ht1 & Hk1 & _).
  fold w1 in Hc1, Ht1, Hk1. rewrite Hc1, <- app_assoc in Hcalls.
  rewrite (calls_since_app _ _ _ Hcalls).
  assert (Hmem : forall id,
             In (DeleteSnapshot id)
                ([CreateSnapshot (vol_id volume)
                    (snap_description (new_snapshot_of instance_name volume w))
                    (w_next_id w);
                  CreateTags (w_next_id w) [(DELETE_TAG, "true")]] ++ cs)
             <-> deletes cs id = true).
  { intros id. apply created_calls_not_deletions; discriminate. }
  assert (Hread : forall i, examined_at w1 listing i = purge_reading w listing i).
  { intros i. unfold examined_at, purge_reading. rewrite Hk1, Ht1.
    rewrite (List.filter_ext _ _ marked_true_reading). reflexivity. }
  split.
  - intros i s Hs. rewrite Hmem, (Hiff i s Hs), marked_true_reading, Hread.
    reflexivity.
  - intros Hnone id. rewrite Hmem, Hfew; [discriminate |].
    unfold listing. rewrite Hnone. simpl. lia.
Qed.

(** ** Retention values that are not integers *)


(** C10. The instance's [Retention] value is parsed before any of its volumes
    is looked at: when a visited instance that is opted in carries a value that
    [int] does not parse, the run raises [ValueError] in the world left by the
    instances enumerated before it, so nothing is created or deleted for this
    instance's volumes and no later instance is processed. *)
Theorem bad_instance_retention_aborts_run (event context : PyVal) (w w1 : World)
    (before after : list Instance) (instance : Instance) (s : string) :
  instances_to_visit w = before ++ instance :: after ->
  for_each before instance_body w = (Ok tt, w1) ->
  instance_opted_in instance = true ->
  tag_value RETENTION_TAG (inst_tags instance) = Some s ->
  int_of_str s = None ->
  lambda_handler event context w = (Raised ValueError, w1).
Proof.
  intros Hsel Hbefore Hin Htag Hparse. rewrite <- instances_to_visit_selected in Hsel.
  unfold lambda_handler.
  rewrite (bind_ok _ _ _ _ _ (instances_filter_selected w)), Hsel.
  apply bind_raised. rewrite for_each_app, (bind_ok _ _ _ _ _ Hbefore).
  simpl. apply bind_raised.
  apply (instance_body_bad_retention instance s).
  - rewrite instance_opted_in_reading, Hin. reflexivity.
  - rewrite tag_value_dict. exact Htag.
  - exact Hparse.
Qed.

(** ** Opting out, and opting in by default, in the specification's terms *)

(** C6. No snapshot is created for an instance or a volume whose
    [MakeSnapshot] value is ['false'], ['0'] or ['none'] up to case: every
    snapshot a run creates, completed or not, is for a volume that is not opted
    out of a visited instance that is opted in, and processing an opted-out
    instance, or an opted-out volume, leaves the world as it was.  A volume
    without the tag, on a visited instance that is opted in, is processed: a
    completed run has created a snapshot for it. *)
Theorem opt_out_and_default (event context : PyVal) (w : World) :
  let w' := snd (lambda_handler event context w) in
  Forall (creation_allowed w) (calls_since w w') /\
  (forall instance v w0,
     tag_value SNAPSHOT_TAG (inst_tags instance) = Some v ->
     opts_out v = true ->
     instance_body instance w0 = (Ok tt, w0)) /\
  (forall volume v instance_name retention_days w0,
     tag_value SNAPSHOT_TAG (vol_tags volume) = Some v ->
     opts_out v = true ->
     volume_body instance_name retention_days volume w0 = (Ok tt, w0)) /\
  (fst (lambda_handler event context w) = Ok true ->
   forall instance volume,
     In instance (instances_to_visit w) ->
     instance_opted_in instance = true ->
     In volume (inst_volumes instance) ->
     tag_value SNAPSHOT_TAG (vol_tags volume) = None ->
     exists description id,
       In (CreateSnapshot (vol_id volume) description id) (calls_since w w')).
Proof.
  intros w'. split; [| split; [| split]].
  - eapply Forall_impl; [apply run_creations_justified |].
    intros [vid d id| |]; simpl; [| trivial | trivial].
    intros (i & v & Hi & Hv & Hid & Hin & Hvin). exists i, v.
    rewrite instance_opted_in_reading in Hin. rewrite volume_opted_out_reading in Hvin.
    rewrite <- instances_to_visit_selected.
    split; [exact Hi |]. split; [exact Hv |]. split; [exact Hid |].
    split; [apply negb_false_iff; exact Hin | exact Hvin].
  - intros instance v w0 Hv Hout. unfold instance_body.
    rewrite instance_opted_in_reading. unfold instance_opted_in.
    rewrite Hv, Hout. reflexivity.
  - intros volume v name r w0 Hv Hout. apply volume_body_skipped.
    rewrite volume_opted_out_reading. unfold volume_opted_out. rewrite Hv. exact Hout.
  - intros Hok instance volume Hi Hin Hvol Hnone.
    apply (untagged_volume_gets_snapshot event context w instance volume).
    + exact Hok.
    + rewrite instances_to_visit_selected. exact Hi.
    + rewrite instance_opted_in_reading, Hin. reflexivity.
    + exact Hvol.
    + rewrite tag_value_dict. exact Hnone.
Qed.

(** ** Runs that complete, and the snapshots they take *)

(** X9. A run raises nothing and returns [True] when, for every visited
    instance that is opted in and every volume of it that is not opted out,
    the [Retention] values that apply are values that [int] parses and the
    volume's retention is at most 999999999 days in absolute value. *)
Theorem run_completes (event context : PyVal) (w : World) :
  retentions_fit w = true ->
  fst (lambda_handler event context w) = Ok true.
Proof.
  intros H. apply handler_completes. unfold retentions_ok.
  rewrite instances_to_visit_selected, <- H. unfold retentions_fit.
  apply forallb_agree. intros i. unfold instance_retention_ok, instance_retention_fits.
  rewrite instance_opted_in_reading, retention_of_instance_reading.
  destruct (retention_of (inst_tags i) RETENTION_DAYS_DEFAULT) as [r|e]; [| reflexivity].
  f_equal. apply forallb_agree. intros v.
  unfold volume_retention_ok, volume_retention_fits.
  rewrite volume_opted_out_reading, retention_of_volume_reading. reflexivity.
Qed.

Lemma created_volumes_app (a b : list ApiCall) :
  created_volumes (a ++ b) = created_volumes a ++ created_volumes b.
Proof.
  induction a as [|[vid d id|id tags|id] a IH]; simpl; rewrite ?IH; reflexivity.
Qed.

Lemma created_volumes_deletions (cs : list ApiCall) :
  Forall (fun c => exists id, c = DeleteSnapshot id) cs -> created_volumes cs = [].
Proof. induction 1 as [|c cs [id ->] _ IH]; [reflexivity | exact IH]. Qed.

Lemma for_each_created {A : Type} (body : A -> M unit) (due : A -> list string)
    (l : list A) :
  (forall x w w', body x w = (Ok tt, w') ->
     exists cs, w_calls w' = w_calls w ++ cs /\ created_volumes cs = due x) ->
  forall w w', for_each l body w = (Ok tt, w') ->
  exists cs, w_calls w' = w_calls w ++ cs /\ created_volumes cs = flat_map due l.
Proof.
  intros Hbody. induction l as [|x l IH]; intros w w' H.
  - injection H as <-. exists []. rewrite app_nil_r. split; reflexivity.
  - simpl in H. apply bind_inv_ok in H as [[] [wx [Hx Hl]]].
    destruct (Hbody _ _ _ Hx) as (cx & Hcx & Hnx).
    destruct (IH _ _ Hl) as (cl & Hcl & Hnl).
    exists (cx ++ cl). split; [rewrite Hcl, Hcx, app_assoc; reflexivity |].
    rewrite created_volumes_app, Hnx, Hnl. reflexivity.
Qed.

Lemma volume_body_created (instance_name : PyVal) (retention_days : Z)
    (volume : Volume) (w w' : World) (res : Result unit) :
  volume_body instance_name retention_days volume w = (res, w') ->
  exists cs,
    w_calls w' = w_calls w ++ cs /\
    created_volumes cs = if volume_opted_out volume then [] else [vol_id volume].
Proof.
  intros H. rewrite <- volume_opted_out_reading.
  destruct (is_false_value (volume_make_snapshot (tags_dict (vol_tags volume)))) eqn:Hin.
  - rewrite volume_body_skipped in H by exact Hin. injection H as <- <-.
    exists []. rewrite app_nil_r. split; reflexivity.
  - destruct (volume_body_calls _ _ _ _ _ _ Hin H) as (cs & Hcs & Hdel).
    eexists. split; [exact Hcs |].
    rewrite created_volumes_app, (created_volumes_deletions _ Hdel). reflexivity.
Qed.

Lemma due_volumes_flat_map (l : list Volume) :
  flat_map (fun v => if volume_opted_out v then [] else [vol_id v]) l
  = map vol_id (List.filter (fun v => negb (volume_opted_out v)) l).
Proof.
  induction l as [|v l IH]; [reflexivity |].
  simpl. destruct (volume_opted_out v); simpl; rewrite IH; reflexivity.
Qed.

Lemma instance_body_created (instance : Instance) (w w' : World) :
  instance_body instance w = (Ok tt, w') ->
  exists cs,
    w_calls w' = w_calls w ++ cs /\ created_volumes cs = volumes_due_of instance.
Proof.
  unfold instance_body, volumes_due_of. rewrite instance_opted_in_reading. intros H.
  destruct (instance_opted_in instance); cbn [negb] in H.
  - apply bind_inv_ok in H as (r & w1 & Hr & Hl).
    assert (w1 = w) as -> by (unfold lift in Hr; congruence).
    rewrite <- due_volumes_flat_map.
    refine (for_each_created _ _ _ _ _ _ Hl).
    intros v wa wb Hv. exact (volume_body_created _ _ _ _ _ _ Hv).
  - injection H as <-. exists []. rewrite app_nil_r. split; reflexivity.
Qed.

(** X12. In a completed run, the volumes for which a snapshot is created
    are, in the order of the creations, the volumes that are not opted out of
    the visited instances that are opted in, instance after instance and volume
    after volume: one creation for each of them, a volume attached to several
    such instances having one for each, and no other creation. *)
Theorem one_snapshot_per_processed_volume (event context : PyVal) (w : World) :
  fst (lambda_handler event context w) = Ok true ->
  created_volumes (calls_since w (snd (lambda_handler event context w)))
  = volumes_due w.
Proof.
  rewrite lambda_handler_unfold. unfold volumes_due.
  rewrite <- instances_to_visit_selected.
  destruct (for_each (selected_instances w) instance_body w) as [[[]|e] w1] eqn:Hrun;
    intros Hok; [| discriminate Hok].
  simpl.
  destruct (for_each_created _ _ _ instance_body_created _ _ Hrun) as (cs & Hcs & Hn).
  rewrite (calls_since_app _ _ _ Hcs). exact Hn.
Qed.

End Handler.

(** * The handler at work on concrete clouds *)

Example str_none_lower : Py.lower (Py.str PNone) = "none".
Proof. reflexivity. Qed.

Example isoformat_examples :
  Datetime.isoformat (Datetime.utcfromtimestamp 1478283807123456)
    = "2016-11-04T18:23:27.123456" /\
  Datetime.isoformat (Datetime.utcfromtimestamp 1478283807000000)
    = "2016-11-04T18:23:27" /\
  Datetime.isoformat (Datetime.utcfromtimestamp 951782400000001)
    = "2000-02-29T00:00:00.000001" /\
  Datetime.isoformat (Datetime.utcfromtimestamp (-1))
    = "1969-12-31T23:59:59.999999".
Proof. repeat split; vm_compute; reflexivity. Qed.

Example rpartition_examples :
  Py.rpartition "." "2016-11-04T18:23:27.123456" = ("2016-11-04T18:23:27", ".", "123456") /\
  Py.rpartition "." "2016-11-04T18:23:27" = ("", "", "2016-11-04T18:23:27") /\
  Py.rpartition "." "a.b.c" = ("a.b", ".", "c").
Proof. repeat split; reflexivity. Qed.

Lemma handler_returns_true_witness :
  fst (lambda_handler Py.parse_int PNone PNone (scenario "5" [old_snapshot 0 6; old_snapshot 1 3] (ticking T0)))
    = Ok true /\ true = true.
Proof.
  split; [vm_compute; reflexivity |].
  apply (handler_returns_true Py.parse_int PNone PNone
           (scenario "5" [old_snapshot 0 6; old_snapshot 1 3] (ticking T0)) true).
  vm_compute. reflexivity.
Defined.

Lemma expiry_is_strict_witness :
  let s := old_snapshot 0 5 in
  let w := scenario "5" [s] (frozen T0) in
  let w' := snd (snapshot_body 5 s w) in
  fst (snapshot_body 5 s w) = Ok tt /\
  (w_clock w (w_tick w) - snap_start_time s = 5 * Datetime.US_PER_DAY ->
   calls_since w w' = [] /\ w_snapshots w' = w_snapshots w) /\
  (In (DeleteSnapshot (snap_id s)) (calls_since w w') <->
   w_clock w (w_tick w) - snap_start_time s > 5 * Datetime.US_PER_DAY).
Proof.
  intros s w w'.
  apply (expiry_is_strict 5 s w).
  - vm_compute. reflexivity.
  - vm_compute. discriminate.
Defined.



Example effective_retention_levels :
  effective_retention_spec Py.parse_int (tags_dict (Some [("Retention", "5")]))
                           (tags_dict (Some [("Retention", "7")])) = Ok 7 /\
  instance_retention_days Py.parse_int (tags_dict (Some [("Retention", "5")])) = Ok 5 /\
  volume_retention_days Py.parse_int (tags_dict (Some [("Retention", "7")])) 5 = Ok 7 /\
  volume_retention_days Py.parse_int (tags_dict None) 5 = Ok 5 /\
  instance_retention_days Py.parse_int (tags_dict None) = Ok 2 /\
  volume_retention_days Py.parse_int (tags_dict None) 2 = Ok 2.
Proof. repeat split; vm_compute; reflexivity. Qed.

(** C2, as stated, fails.  In its scenario the listing holds two snapshots,
    the prior one and the one just taken, so the purge runs and the prior
    snapshot, ten days old under a retention of five, is deleted. *)
Lemma single_prior_snapshot_scenario :
  let w := scenario "5" [old_snapshot 0 10] (ticking T0) in
  let volume := mk_volume "vol-1" None in
  let w' := snd (lambda_handler Py.parse_int PNone PNone w) in
  fst (lambda_handler Py.parse_int PNone PNone w) = Ok true /\
  List.length (tagged_snapshots volume (snd (take_snapshot (PStr "i-1") volume w))) = 2%nat /\
  calls_since w w' =
    [CreateSnapshot "vol-1" "i-1.vol-1.2016-11-04T18:23:27" 1;
     CreateTags 1 [("AutoDelete", "true")];
     DeleteSnapshot 0] /\
  In (DeleteSnapshot 0) (calls_since w w') /\
  map snap_id (w_snapshots w') = [1%nat].
Proof.
  intros w volume w'.
  assert (Hcalls : calls_since w w' =
            [CreateSnapshot "vol-1" "i-1.vol-1.2016-11-04T18:23:27" 1;
             CreateTags 1 [("AutoDelete", "true")];
             DeleteSnapshot 0]) by (vm_compute; reflexivity).
  split; [vm_compute; reflexivity |]. split; [vm_compute; reflexivity |].
  split; [exact Hcalls |]. split; [| vm_compute; reflexivity].
  rewrite Hcalls. right. right. left. reflexivity.
Qed.

Lemma single_prior_snapshot_deleted_witness :
  let w := scenario "5" [old_snapshot 0 10] (ticking T0) in
  let volume := mk_volume "vol-1" None in
  let w' := snd (volume_body Py.parse_int (PStr "i-1") 5 volume w) in
  let new := new_snapshot_of (PStr "i-1") volume w in
  fst (volume_body Py.parse_int (PStr "i-1") 5 volume w) = Ok tt /\
  tagged_snapshots volume (snd (take_snapshot (PStr "i-1") volume w))
    = [old_snapshot 0 10; new] /\
  In (CreateSnapshot (vol_id volume) (snap_description new) (snap_id new))
     (calls_since w w') /\
  In (DeleteSnapshot (snap_id (old_snapshot 0 10))) (calls_since w w').
Proof.
  intros w volume w' new.
  apply (single_prior_snapshot_deleted Py.parse_int (PStr "i-1") 5 5 volume (old_snapshot 0 10) w).
  - vm_compute. reflexivity.
  - vm_compute. reflexivity.
  - vm_compute. reflexivity.
  - vm_compute. discriminate.
  - vm_compute. reflexivity.
  - vm_compute. reflexivity.
  - vm_compute. reflexivity.
Defined.

(** C9, as stated, fails.  With a retention of 0 days, which is not negative,
    and a clock that has moved on by the time the purge examines the new
    snapshot, the run deletes the snapshot it has just taken, and here the
    volume is left with no snapshot at all. *)
Lemma zero_retention_deletes_new_snapshot :
  let w := scenario "0" [old_snapshot 0 10] (ticking T0) in
  let volume := mk_volume "vol-1" None in
  let w' := snd (lambda_handler Py.parse_int PNone PNone w) in
  fst (lambda_handler Py.parse_int PNone PNone w) = Ok true /\
  volume_retention_days Py.parse_int (tags_dict (vol_tags volume)) 0 = Ok 0 /\
  snap_id (new_snapshot_of (PStr "i-1") volume w) = 1%nat /\
  In (CreateSnapshot "vol-1" "i-1.vol-1.2016-11-04T18:23:27" 1) (calls_since w w') /\
  In (DeleteSnapshot 1) (calls_since w w') /\
  w_snapshots w' = [].
Proof.
  intros w volume w'.
  assert (Hcalls : calls_since w w' =
            [CreateSnapshot "vol-1" "i-1.vol-1.2016-11-04T18:23:27" 1;
             CreateTags 1 [("AutoDelete", "true")];
             DeleteSnapshot 0; DeleteSnapshot 1]) by (vm_compute; reflexivity).
  split; [vm_compute; reflexivity |]. split; [vm_compute; reflexivity |].
  split; [reflexivity |]. rewrite Hcalls.
  split; [left; reflexivity |]. split; [right; right; right; left; reflexivity |].
  vm_compute. reflexivity.
Qed.

Lemma new_snapshot_survives_witness :
  let w := scenario "5" [old_snapshot 0 6; old_snapshot 1 3] (ticking T0) in
  let volume := mk_volume "vol-1" None in
  let w' := snd (volume_body Py.parse_int (PStr "i-1") 5 volume w) in
  let new := new_snapshot_of (PStr "i-1") volume w in
  ~ In (DeleteSnapshot (snap_id new)) (calls_since w w') /\
  In new (w_snapshots w') /\
  snap_volume_id new = vol_id volume.
Proof.
  intros w volume w' new.
  apply (new_snapshot_survives Py.parse_int (PStr "i-1") 5 5 volume w w').
  - vm_compute. reflexivity.
  - vm_compute. reflexivity.
  - vm_compute. reflexivity.
  - apply run_ok. vm_compute. reflexivity.
  - intros k Hk. change (w_tick w) with 0%nat in *.
    assert (Htick : w_tick w' = 5%nat) by (vm_compute; reflexivity).
    rewrite Htick in Hk. unfold w, scenario, ticking, Datetime.US_PER_DAY,
      Datetime.US_PER_SECOND. simpl w_clock. lia.
Defined.

Example opt_out_examples :
  let skipped := mk_instance "i-2" "running" (Some [("MakeSnapshot", "False")])
                   [mk_volume "vol-2" None] in
  let w := mk_world
             [skipped;
              mk_instance "i-3" "running" (Some [("MakeSnapshot", "on")])
                [mk_volume "vol-3" (Some [("MakeSnapshot", "NONE")]);
                 mk_volume "vol-4" None;
                 mk_volume "vol-5" (Some [("MakeSnapshot", "0")])]]
             [] [] 0 (frozen T0) 0 in
  fst (lambda_handler Py.parse_int PNone PNone w) = Ok true /\
  w_calls (snd (lambda_handler Py.parse_int PNone PNone w)) =
    [CreateSnapshot "vol-4" "i-3.vol-4.2016-11-04T18:23:27" 0;
     CreateTags 0 [("AutoDelete", "true")]].
Proof. split; vm_compute; reflexivity. Qed.

Lemma whole_second_description_has_no_timestamp_witness :
  let w := scenario "5" [old_snapshot 0 10] (frozen 1478283807000000) in
  let volume := mk_volume "vol-1" None in
  let w' := snd (volume_body Py.parse_int (PStr "i-1") 5 volume w) in
  In (CreateSnapshot "vol-1" "i-1.vol-1." 1) (calls_since w w').
Proof.
  intros w volume w'.
  apply (whole_second_description_has_no_timestamp Py.parse_int (PStr "i-1") 5 volume w w'
           (fst (volume_body Py.parse_int (PStr "i-1") 5 volume w))).
  - vm_compute. reflexivity.
  - vm_compute. reflexivity.
  - apply surjective_pairing.
Defined.

Example description_examples :
  snapshot_description (PStr "web") (mk_volume "vol-1" None)
    (Datetime.utcfromtimestamp 1478283807123456) = "web.vol-1.2016-11-04T18:23:27" /\
  snapshot_description (PStr "web") (mk_volume "vol-1" None)
    (Datetime.utcfromtimestamp 1478283807000000) = "web.vol-1." /\
  snapshot_description (PStr "web.example.org") (mk_volume "vol-1" None)
    (Datetime.utcfromtimestamp 1478283807000001) = "web.example.org.vol-1.2016-11-04T18:23:27".
Proof. repeat split; vm_compute; reflexivity. Qed.

Example tags_dict_examples :
  tags_dict (Some [("Name", "a"); ("Retention", "3"); ("Name", "b")]) !! "Name" = Some "b" /\
  tags_dict (Some [("Name", "a"); ("Retention", "3"); ("Name", "b")]) !! "Retention" = Some "3" /\
  tags_dict (Some [("Name", "a")]) !! "name" = None /\
  tags_dict None !! "Name" = None.
Proof. repeat split; vm_compute; reflexivity. Qed.

Lemma tag_defaults_never_read_witness :
  let w := scenario "5" [old_snapshot 0 6; old_snapshot 1 3] (ticking T0) in
  (exists v, tags_dict (inst_tags (web_instance "5")) !! SNAPSHOT_TAG = Some v /\
             instance_make_snapshot (tags_dict (inst_tags (web_instance "5"))) = Py.lower v) /\
  (exists v, tags_dict (snap_tags (old_snapshot 1 3)) !! DELETE_TAG = Some v /\
             auto_delete_value (old_snapshot 1 3) = Py.lower v).
Proof.
  intros w.
  apply (tag_defaults_never_read w (web_instance "5") (mk_volume "vol-1" None)
           (old_snapshot 1 3)).
  - left. reflexivity.
  - right. left. reflexivity.
Defined.

Lemma nothing_selected_nothing_done_witness :
  let w := mk_world
             [mk_instance "i-9" "stopped" (Some [("MakeSnapshot", "true")])
                [mk_volume "vol-9" None];
              mk_instance "i-8" "running" (Some [("Name", "cache")])
                [mk_volume "vol-8" None]]
             [old_snapshot 0 10] [] 1 (ticking T0) 0 in
  lambda_handler Py.parse_int PNone PNone w = (Ok true, w).
Proof.
  intros w. apply (nothing_selected_nothing_done Py.parse_int PNone PNone w).
  intros i [<-|[<-|[]]].
  - left. discriminate.
  - right. reflexivity.
Defined.

Lemma creation_is_followed_by_tagging_witness :
  exists post',
    [CreateTags 1 [("AutoDelete", "true")]; DeleteSnapshot 0]
    = CreateTags 1 [(DELETE_TAG, "true")] :: post'.
Proof.
  apply (creation_is_followed_by_tagging Py.parse_int PNone PNone
           (scenario "5" [old_snapshot 0 10] (ticking T0))
           [] [CreateTags 1 [("AutoDelete", "true")]; DeleteSnapshot 0]
           "vol-1" "i-1.vol-1.2016-11-04T18:23:27" 1).
  vm_compute. reflexivity.
Defined.

Lemma run_never_deletes_unmarked_snapshot_witness :
  let kept_forever :=
    mk_snapshot 1 "vol-1" "release" (T0 - 400 * Datetime.US_PER_DAY)
                (Some [("AutoDelete", "no")]) in
  let w := mk_world [web_instance "5"] [old_snapshot 0 10; kept_forever] [] 2
                    (ticking T0) 0 in
  let w' := snd (lambda_handler Py.parse_int PNone PNone w) in
  In kept_forever (w_snapshots w') /\
  ~ In (DeleteSnapshot (snap_id kept_forever)) (calls_since w w').
Proof.
  intros kept_forever w w'.
  apply (run_never_deletes_unmarked_snapshot Py.parse_int PNone PNone w kept_forever).
  - vm_compute. reflexivity.
  - right. left. reflexivity.
  - vm_compute. discriminate.
Defined.

Lemma run_never_deletes_snapshot_of_other_volume_witness :
  let foreign :=
    mk_snapshot 1 "vol-7" "other" (T0 - 400 * Datetime.US_PER_DAY)
                (Some [("AutoDelete", "true")]) in
  let w := mk_world [web_instance "5"] [old_snapshot 0 10; foreign] [] 2
                    (ticking T0) 0 in
  let w' := snd (lambda_handler Py.parse_int PNone PNone w) in
  In foreign (w_snapshots w') /\
  ~ In (DeleteSnapshot (snap_id foreign)) (calls_since w w').
Proof.
  intros foreign w w'.
  apply (run_never_deletes_snapshot_of_other_volume Py.parse_int PNone PNone w foreign).
  - vm_compute. reflexivity.
  - right. left. reflexivity.
  - intros (i & v & Hi & Hv & Hid & _).
    destruct Hi as [<-|[]]. destruct Hv as [<-|[]]. discriminate Hid.
Defined.

Lemma description_keeps_whole_seconds_witness :
  let w := scenario "5" [old_snapshot 0 10] (ticking T0) in
  let volume := mk_volume "vol-1" None in
  let w' := snd (volume_body Py.parse_int (PStr "web") 5 volume w) in
  let stamp :=
    Datetime.isoformat_seconds (Datetime.utcfromtimestamp (w_clock w (w_tick w))) in
  In (CreateSnapshot "vol-1" ("web" +:+ "." +:+ "vol-1" +:+ "." +:+ stamp) 1)
     (calls_since w w') /\
  contains "." stamp = false.
Proof.
  intros w volume w' stamp.
  apply (description_keeps_whole_seconds Py.parse_int (PStr "web") 5 volume w w'
           (fst (volume_body Py.parse_int (PStr "web") 5 volume w))).
  - vm_compute. reflexivity.
  - vm_compute. discriminate.
  - apply surjective_pairing.
Defined.

Lemma descriptions_use_display_name_witness :
  (exists volume, In volume (inst_volumes db_instance) /\ vol_id volume = "vol-0") /\
  exists stamp, "db.vol-0.2016-11-04T18:23:27" = "db" +:+ "." +:+ "vol-0" +:+ "." +:+ stamp /\
                contains "." stamp = false.
Proof.
  apply (descriptions_use_display_name Py.parse_int db_instance mixed_cloud
           "vol-0" "db.vol-0.2016-11-04T18:23:27" 1).
  vm_compute. left. reflexivity.
Defined.

Lemma huge_retention_raises_witness :
  let w := scenario "5" [old_snapshot 0 10] (ticking T0) in
  let volume := mk_volume "vol-1" (Some [("Retention", "1000000000")]) in
  volume_body Py.parse_int (PStr "i-1") 5 volume w =
    (match tagged_snapshots volume w with
     | [] => Ok tt
     | _ :: _ => Raised OverflowError
     end,
     snd (take_snapshot (PStr "i-1") volume w)).
Proof.
  intros w volume.
  apply (huge_retention_raises Py.parse_int (PStr "i-1") 5 1000000000 volume w).
  - vm_compute. reflexivity.
  - vm_compute. reflexivity.
  - vm_compute. reflexivity.
  - vm_compute. reflexivity.
Defined.

Lemma opted_out_volume_is_invisible_witness :
  let tags := Some [("MakeSnapshot", "true"); ("Retention", "5")] in
  let scratch := mk_volume "vol-2" (Some [("MakeSnapshot", "False")]) in
  let w := scenario "5" [old_snapshot 0 10] (ticking T0) in
  instance_body Py.parse_int
    (mk_instance "i-1" "running" tags ([mk_volume "vol-1" None] ++ scratch :: [])) w
  = instance_body Py.parse_int (mk_instance "i-1" "running" tags ([mk_volume "vol-1" None] ++ [])) w.
Proof.
  intros tags scratch w.
  apply (opted_out_volume_is_invisible Py.parse_int "i-1" "running" tags [mk_volume "vol-1" None] []
           scratch w).
  vm_compute. reflexivity.
Defined.

(** [int] on the strings a tag can hold: ASCII literals, and literals with
    the white space and the decimal digits of Unicode, in UTF-8.  The byte 28
    (a file separator) is white space for [str.strip] but not for [int]. *)
Example int_examples :
  Py.int Py.parse_int (PStr " 14 ") = Ok 14 /\
  Py.int Py.parse_int (PStr "-3") = Ok (-3) /\
  Py.int Py.parse_int (PStr "+07") = Ok 7 /\
  Py.int Py.parse_int (PStr "1_000") = Ok 1000 /\
  Py.int Py.parse_int (PStr "abc") = Raised ValueError /\
  Py.int Py.parse_int (PStr "") = Raised ValueError /\
  Py.int Py.parse_int (PStr "5.0") = Raised ValueError /\
  Py.int Py.parse_int (PStr "1__0") = Raised ValueError /\
  Py.int Py.parse_int (PStr "_1") = Raised ValueError /\
  Py.int Py.parse_int (PStr "- 1") = Raised ValueError /\
  Py.int Py.parse_int (PInt 2) = Ok 2 /\
  Py.int Py.parse_int (PStr (String "028" "5")) = Raised ValueError /\
  Py.int Py.parse_int (PStr (String "127" "5")) = Raised ValueError /\
  Py.int Py.parse_int (PStr (String "009" (String "012" "5"))) = Ok 5 /\
  Py.int Py.parse_int (PStr (String "239" (String "188" (String "149" EmptyString)))) = Ok 5 /\
  Py.int Py.parse_int (PStr (String "194" (String "160" "5"))) = Ok 5 /\
  Py.int Py.parse_int (PStr (String "053" (String "194" (String "133" EmptyString)))) = Ok 5 /\
  Py.int Py.parse_int (PStr (String "217" (String "163" "2"))) = Ok 32 /\
  Py.int Py.parse_int (PStr (String "194" (String "178" EmptyString))) = Raised ValueError /\
  Py.int Py.parse_int (PStr (String "160" "5")) = Raised ValueError.
Proof. repeat split; vm_compute; reflexivity. Qed.

(** [int] converts at most 4300 digits, leading zeros included. *)
Example int_digit_limit :
  Py.parse_int (string_of_list_ascii (repeat "9"%char 4301)) = None /\
  Py.parse_int (string_of_list_ascii (repeat "0"%char 4301)) = None /\
  Py.parse_int (string_of_list_ascii (repeat "0"%char 4300)) = Some 0 /\
  Py.parse_int (string_of_list_ascii (repeat " "%char 5000 ++ ["1"%char])) = Some 1.
Proof. repeat split; vm_compute; reflexivity. Qed.

(** C1, as stated, fails when its count is the count of the snapshots the
    volume had before the run.  The volume has one snapshot with the tag,
    marked ['true'] and three days old under a retention of two days: the
    count is 1, and the run deletes the snapshot, because the listing also
    holds the snapshot just taken. *)
Lemma lone_prior_snapshot_is_deleted :
  let w := scenario "2" [old_snapshot 0 3] (frozen T0) in
  let volume := mk_volume "vol-1" None in
  let w' := snd (lambda_handler Py.parse_int PNone PNone w) in
  fst (lambda_handler Py.parse_int PNone PNone w) = Ok true /\
  snapshots_with_tag volume w = [old_snapshot 0 3] /\
  List.length (snapshots_with_tag volume w) = 1%nat /\
  marked_true (old_snapshot 0 3) = true /\
  In (DeleteSnapshot (snap_id (old_snapshot 0 3))) (calls_since w w') /\
  map snap_id (w_snapshots w') = [1%nat].
Proof.
  intros w volume w'.
  assert (Hcalls : calls_since w w' =
            [CreateSnapshot "vol-1" "i-1.vol-1.2016-11-04T18:23:27" 1;
             CreateTags 1 [("AutoDelete", "true")];
             DeleteSnapshot 0]) by (vm_compute; reflexivity).
  split; [vm_compute; reflexivity |]. split; [vm_compute; reflexivity |].
  split; [vm_compute; reflexivity |]. split; [vm_compute; reflexivity |].
  split; [| vm_compute; reflexivity].
  rewrite Hcalls. right. right. left. reflexivity.
Qed.

Lemma snapshot_deleted_iff_witness :
  let w := scenario "5" [old_snapshot 0 6; old_snapshot 1 3] (ticking T0) in
  let volume := mk_volume "vol-1" None in
  let w' := snd (volume_body Py.parse_int (PStr "i-1") 5 volume w) in
  let listing :=
    snapshots_with_tag volume w ++ [new_snapshot_of (PStr "i-1") volume w] in
  In (DeleteSnapshot 0) (calls_since w w') <->
    marked_true (old_snapshot 0 6) = true /\
    purge_reading w listing 0 - snap_start_time (old_snapshot 0 6)
      > 5 * Datetime.US_PER_DAY /\
    (1 < List.length listing)%nat.
Proof.
  intros w volume w' listing.
  assert (Hwf : wf_world w = true) by (vm_compute; reflexivity).
  assert (Hin : volume_opted_out volume = false) by (vm_compute; reflexivity).
  assert (Hr : retention_of Py.parse_int (vol_tags volume) 5 = Ok 5)
    by (vm_compute; reflexivity).
  assert (Hrun : volume_body Py.parse_int (PStr "i-1") 5 volume w = (Ok tt, w'))
    by (apply run_ok; vm_compute; reflexivity).
  destruct (snapshot_deleted_iff Py.parse_int (PStr "i-1") 5 5 volume w w' Hwf Hin Hr Hrun)
    as [H _].
  apply (H 0%nat (old_snapshot 0 6)). vm_compute. reflexivity.
Defined.


Lemma bad_instance_retention_aborts_run_witness :
  let w := mixed_cloud in
  let w1 := snd (for_each [db_instance] (instance_body Py.parse_int) w) in
  lambda_handler Py.parse_int PNone PNone w = (Raised ValueError, w1) /\
  calls_since w w1 =
    [CreateSnapshot "vol-0" "db.vol-0.2016-11-04T18:23:27" 1;
     CreateTags 1 [("AutoDelete", "true")]].
Proof.
  intros w w1. split; [| vm_compute; reflexivity].
  apply (bad_instance_retention_aborts_run Py.parse_int PNone PNone w w1
           [db_instance] [web_instance "5"] (web_instance "abc") "abc").
  - vm_compute. reflexivity.
  - apply run_ok. vm_compute. reflexivity.
  - vm_compute. reflexivity.
  - vm_compute. reflexivity.
  - vm_compute. reflexivity.
Defined.

(** A retention that starts with the byte 28 is no integer for [int]: the
    run raises on it before anything is created. *)
Example retention_with_control_character :
  let w := scenario (String "028" "5") [old_snapshot 0 10] (ticking T0) in
  retentions_fit Py.parse_int w = false /\
  fst (lambda_handler Py.parse_int PNone PNone w) = Raised ValueError /\
  calls_since w (snd (lambda_handler Py.parse_int PNone PNone w)) = [].
Proof. repeat split; vm_compute; reflexivity. Qed.

Lemma opt_out_and_default_witness :
  let w := opt_out_cloud in
  let w' := snd (lambda_handler Py.parse_int PNone PNone w) in
  fst (lambda_handler Py.parse_int PNone PNone w) = Ok true /\
  Forall (creation_allowed w) (calls_since w w') /\
  instance_body Py.parse_int opted_out_instance w = (Ok tt, w) /\
  volume_body Py.parse_int (PStr "i-3") 2
    (mk_volume "vol-3" (Some [("MakeSnapshot", "NONE")])) w = (Ok tt, w) /\
  volume_body Py.parse_int (PStr "i-3") 2
    (mk_volume "vol-5" (Some [("MakeSnapshot", "0")])) w = (Ok tt, w) /\
  (exists description id,
      In (CreateSnapshot "vol-4" description id) (calls_since w w')) /\
  calls_since w w' =
    [CreateSnapshot "vol-4" "i-3.vol-4.2016-11-04T18:23:27" 0;
     CreateTags 0 [("AutoDelete", "true")]].
Proof.
  intros w w'.
  pose proof (opt_out_and_default Py.parse_int PNone PNone w) as H. cbv zeta in H.
  destruct H as (Hall & Hinst & Hvol & Hdef).
  assert (Hok : fst (lambda_handler Py.parse_int PNone PNone w) = Ok true)
    by (vm_compute; reflexivity).
  assert (Hvisit : instances_to_visit w = [opted_out_instance; partly_opted_out_instance])
    by (vm_compute; reflexivity).
  split; [exact Hok |]. split; [exact Hall |].
  split; [apply (Hinst opted_out_instance "False"); vm_compute; reflexivity |].
  split; [apply (Hvol _ "NONE"); vm_compute; reflexivity |].
  split; [apply (Hvol _ "0"); vm_compute; reflexivity |].
  split; [| vm_compute; reflexivity].
  apply (Hdef Hok partly_opted_out_instance (mk_volume "vol-4" None)).
  - rewrite Hvisit. right. left. reflexivity.
  - vm_compute. reflexivity.
  - right. left. reflexivity.
  - vm_compute. reflexivity.
Defined.

Lemma run_completes_witness :
  fst (lambda_handler Py.parse_int PNone PNone
         (scenario " 5 " [old_snapshot 0 6; old_snapshot 1 3] (ticking T0))) = Ok true.
Proof.
  apply (run_completes Py.parse_int PNone PNone
           (scenario " 5 " [old_snapshot 0 6; old_snapshot 1 3] (ticking T0))).
  vm_compute. reflexivity.
Defined.

Lemma one_snapshot_per_processed_volume_witness :
  let w := mk_world [db_instance; opted_out_instance; partly_opted_out_instance]
             [old_snapshot 0 10] [] 1 (ticking T0) 0 in
  created_volumes (calls_since w (snd (lambda_handler Py.parse_int PNone PNone w)))
  = ["vol-0"; "vol-4"].
Proof.
  intros w.
  transitivity (volumes_due w); [| vm_compute; reflexivity].
  apply (one_snapshot_per_processed_volume Py.parse_int PNone PNone w).
  vm_compute. reflexivity.
Defined.
